(** * The presenter's deck state machine (src/app.js)

    A shallow embedding of the slide presenter: the global [state]
    object, its persistence to [localStorage], and the operations that
    change it (navigation, add, delete, text edit, import, export).

    Layout:
    - [JS]        the JavaScript values and coercions the program relies on
                  ([||], [+], [<], [===], [Math.min], [Math.max], [splice]);
    - [Json]      [JSON.parse] and [JSON.stringify], on texts identified by
                  what the parser makes of them;
    - [Presenter] the program itself, function by function, in a small
                  state-and-exception monad;
    - [Spec]      the vocabulary of the specification (deck invariants,
                  [clamp], typed decks);
    - [Handlers]  the listeners wired by [attachEvents] (arrows, keys,
                  file choice) and the events of a session;
    - [Swipe]     the touch listeners of [addSwipeHandlers];
    - the properties of the specification, settled against [Presenter],
      followed by further properties of the program. *)

From Stdlib Require Import ZArith String Ascii List Bool Lia ZifyBool DecimalString.
From Stdlib Require Import Permutation.
From Stdlib Require DecimalNat DecimalFacts.
Import ListNotations.
Local Open Scope string_scope.
Local Open Scope Z_scope.
Set Warnings "-register-all".

(* ================================================================== *)
(** ** JavaScript values and coercions *)
(* ================================================================== *)

Module JS.

(** Numbers.  The program only ever computes with slide indices; numbers
    are modelled as the integers plus [NaN], which is what a coercion of
    a non-numeric value produces.  Fractions and infinities are not
    represented. *)
Inductive num : Type :=
| NaN
| Int (z : Z).

(** Values as [JSON.parse] builds them, together with [undefined] (the
    value of a missing property).  An object is the ordered list of its
    own properties. *)
Inductive JVal : Type :=
| JUndefined
| JNull
| JBool (b : bool)
| JNum (n : num)
| JStr (s : string)
| JArr (l : list JVal)
| JObj (o : list (string * JVal)).

(** Exceptions.  [OutOfModel] is not an exception of the program: it
    marks the places where a value would leave the integers (see
    [StringToNumber]); no handler of the program catches it, so that the
    model says nothing of what follows. *)
Inductive exn : Type :=
| TypeError
| SyntaxError
| Error (msg : string)
| OutOfModel.

(** The outcome of evaluating an expression or running a statement. *)
Inductive result (A : Type) : Type :=
| Val (a : A)
| Throw (e : exn).
Arguments Val {A} a.
Arguments Throw {A} e.

(** Sequencing of expressions that may throw. *)
Definition rbind {A B} (r : result A) (k : A -> result B) : result B :=
  match r with
  | Val a => k a
  | Throw e => Throw e
  end.

Definition zero : JVal := JNum (Int 0).
Definition one : JVal := JNum (Int 1).

(** [ToBoolean]. *)
Definition truthy (v : JVal) : bool :=
  match v with
  | JUndefined | JNull => false
  | JBool b => b
  | JNum NaN => false
  | JNum (Int z) => negb (z =? 0)
  | JStr s => negb (String.eqb s "")
  | JArr _ | JObj _ => true
  end.

(** [a || b]. *)
Definition js_or (a b : JVal) : JVal := if truthy a then a else b.

(** Own-property lookup in an object. *)
Fixpoint lookup (k : string) (o : list (string * JVal)) : JVal :=
  match o with
  | [] => JUndefined
  | (k', v) :: o' => if String.eqb k k' then v else lookup k o'
  end.

(** [v.k] for the property names the program reads ([slides], [current],
    [id], [text]).  None of them is defined on a built-in prototype, so
    on anything but an object the access yields [undefined]; on [null]
    and [undefined] it throws. *)
Definition getProp (v : JVal) (k : string) : result JVal :=
  match v with
  | JUndefined | JNull => Throw TypeError
  | JObj o => Val (lookup k o)
  | JBool _ | JNum _ | JStr _ | JArr _ => Val JUndefined
  end.

(** [o.k = v] on an object: the property keeps its place when it exists
    and is appended otherwise. *)
Fixpoint set_prop (k : string) (v : JVal) (o : list (string * JVal))
  : list (string * JVal) :=
  match o with
  | [] => [(k, v)]
  | (k', v') :: o' =>
      if String.eqb k k' then (k', v) :: o' else (k', v') :: set_prop k v o'
  end.

Definition NumberToString (n : num) : string :=
  match n with
  | NaN => "NaN"
  | Int z => NilZero.string_of_int (Z.to_int z)
  end.

(** Whether an object has an own property [k]. *)
Definition has_own (k : string) (o : list (string * JVal)) : bool :=
  existsb (fun p => String.eqb k (fst p)) o.

(** [ToString].  An array prints as its elements joined by commas, with
    [null] and [undefined] elements printed as the empty string.  A
    plain object prints through [Object.prototype.toString], unless it
    has an own property [toString]: a parsed value is never callable,
    [valueOf] gives the object back, and the conversion throws. *)
Fixpoint ToString (v : JVal) : result string :=
  match v with
  | JUndefined => Val "undefined"
  | JNull => Val "null"
  | JBool true => Val "true"
  | JBool false => Val "false"
  | JNum n => Val (NumberToString n)
  | JStr s => Val s
  | JArr l =>
      (fix join (l : list JVal) : result string :=
         match l with
         | [] => Val ""
         | x :: l' =>
             rbind (match x with
                    | JUndefined | JNull => Val ""
                    | _ => ToString x
                    end)
                   (fun sx =>
                      match l' with
                      | [] => Val sx
                      | _ :: _ => rbind (join l') (fun r => Val (sx ++ "," ++ r))
                      end)
         end) l
  | JObj o =>
      if has_own "toString" o then Throw TypeError
      else Val "[object Object]"
  end.

Definition is_space (c : ascii) : bool :=
  match nat_of_ascii c with
  | 9%nat | 10%nat | 11%nat | 12%nat | 13%nat | 32%nat => true
  | _ => false
  end.

Definition digit_of (c : ascii) : option Z :=
  let n := Z.of_nat (nat_of_ascii c) in
  if (48 <=? n) && (n <=? 57) then Some (n - 48) else None.

Fixpoint trim_left (s : string) : string :=
  match s with
  | EmptyString => EmptyString
  | String c s' => if is_space c then trim_left s' else s
  end.

Fixpoint string_rev (s acc : string) : string :=
  match s with
  | EmptyString => acc
  | String c s' => string_rev s' (String c acc)
  end.

Definition trim (s : string) : string :=
  string_rev (trim_left (string_rev (trim_left s) "")) "".

Fixpoint decimal (s : string) (acc : Z) : option Z :=
  match s with
  | EmptyString => Some acc
  | String c s' =>
      match digit_of c with
      | Some d => decimal s' (10 * acc + d)
      | None => None
      end
  end.

Fixpoint all_ascii (s : string) : bool :=
  match s with
  | EmptyString => true
  | String c s' => (nat_of_ascii c <? 128)%nat && all_ascii s'
  end.

(** The largest integer below which every integer is a number of the
    program. *)
Definition max_safe : Z := 9007199254740992.

(** An unsigned numeric literal, the sign being read already.  A run of
    decimal digits is that integer.  A text that starts like a numeric
    literal (a digit, a dot, [Infinity]) and is no such run may denote a
    fraction, carry an exponent or a radix prefix, or be no number at
    all: the model does not follow it.  Any other text is no numeric
    literal: [NaN]. *)
Definition unsigned_literal (d : string) : result num :=
  match d with
  | EmptyString => Val NaN
  | String c _ =>
      match decimal d 0 with
      | Some z => if z <=? max_safe then Val (Int z) else Throw OutOfModel
      | None =>
          match digit_of c with
          | Some _ => Throw OutOfModel
          | None =>
              if (Ascii.eqb c "." || Ascii.eqb c "I")%bool then Throw OutOfModel
              else Val NaN
          end
      end
  end.

(** [StringToNumber], as far as the integers go: a blank string is [0],
    a signed run of decimal digits is that integer, and a text that
    cannot start a numeric literal is [NaN].  White space is the ASCII
    one; a string with other than ASCII characters is not followed. *)
Definition StringToNumber (s : string) : result num :=
  if all_ascii s then
    match trim s with
    | EmptyString => Val (Int 0)
    | String "-" d =>
        rbind (unsigned_literal d)
              (fun n => Val (match n with Int z => Int (- z) | NaN => NaN end))
    | String "+" d => unsigned_literal d
    | d => unsigned_literal d
    end
  else Throw OutOfModel.

(** [ToPrimitive]: arrays and plain objects convert through [toString]
    (their [valueOf] gives the object back). *)
Definition ToPrimitive (v : JVal) : result JVal :=
  match v with
  | JArr _ | JObj _ => rbind (ToString v) (fun s => Val (JStr s))
  | _ => Val v
  end.

(** [ToNumber]. *)
Definition ToNumber (v : JVal) : result num :=
  rbind (ToPrimitive v)
        (fun p =>
           match p with
           | JUndefined => Val NaN
           | JNull => Val (Int 0)
           | JBool b => Val (Int (if b then 1 else 0))
           | JNum n => Val n
           | JStr s => StringToNumber s
           | JArr _ | JObj _ => Val NaN
           end).

Definition num_add (a b : num) : num :=
  match a, b with
  | Int x, Int y => Int (x + y)
  | _, _ => NaN
  end.

Definition num_sub (a b : num) : num :=
  match a, b with
  | Int x, Int y => Int (x - y)
  | _, _ => NaN
  end.

(** [a + b]: both operands are made primitive, left first; the result is
    a concatenation as soon as one of them is a string, a numeric
    addition otherwise. *)
Definition js_add (a b : JVal) : result JVal :=
  rbind (ToPrimitive a) (fun pa =>
  rbind (ToPrimitive b) (fun pb =>
    match pa, pb with
    | JStr s, _ => rbind (ToString pb) (fun t => Val (JStr (s ++ t)))
    | _, JStr t => rbind (ToString pa) (fun s => Val (JStr (s ++ t)))
    | _, _ =>
        rbind (ToNumber pa) (fun x =>
        rbind (ToNumber pb) (fun y => Val (JNum (num_add x y))))
    end)).

(** [a - b]: both operands are converted with [ToNumber]. *)
Definition js_sub (a b : JVal) : result JVal :=
  rbind (ToNumber a) (fun x =>
  rbind (ToNumber b) (fun y => Val (JNum (num_sub x y)))).

Definition num_ltb (a b : num) : bool :=
  match a, b with
  | Int x, Int y => x <? y
  | _, _ => false
  end.

Definition num_leb (a b : num) : bool :=
  match a, b with
  | Int x, Int y => x <=? y
  | _, _ => false
  end.

(** [a < n], [a > n], [a <= n] and [a >= n] against a number [n], and
    [n < a], [n > a] for a number on the left: the other operand is
    converted with [ToNumber]; every comparison with [NaN] is false. *)
Definition js_lt (a : JVal) (n : Z) : result bool :=
  rbind (ToNumber a) (fun x => Val (num_ltb x (Int n))).

Definition js_gt (a : JVal) (n : Z) : result bool :=
  rbind (ToNumber a) (fun x => Val (num_ltb (Int n) x)).

Definition js_le (a : JVal) (n : Z) : result bool :=
  rbind (ToNumber a) (fun x => Val (num_leb x (Int n))).

Definition js_ge (a : JVal) (n : Z) : result bool :=
  rbind (ToNumber a) (fun x => Val (num_leb (Int n) x)).

Definition lt_js (n : Z) (a : JVal) : result bool :=
  rbind (ToNumber a) (fun x => Val (num_ltb (Int n) x)).

Definition gt_js (n : Z) (a : JVal) : result bool :=
  rbind (ToNumber a) (fun x => Val (num_ltb x (Int n))).

(** [a === b].  Arrays and objects compare by identity; the only strict
    comparison of the program has a freshly computed left operand, which
    is never the object held on the right. *)
Definition strict_eq (a b : JVal) : bool :=
  match a, b with
  | JUndefined, JUndefined => true
  | JNull, JNull => true
  | JBool x, JBool y => Bool.eqb x y
  | JNum (Int x), JNum (Int y) => x =? y
  | JStr s, JStr t => String.eqb s t
  | _, _ => false
  end.

(** [Math.max] and [Math.min] of two numbers. *)
Definition math_max (a b : num) : num :=
  match a, b with
  | Int x, Int y => Int (Z.max x y)
  | _, _ => NaN
  end.

Definition math_min (a b : num) : num :=
  match a, b with
  | Int x, Int y => Int (Z.min x y)
  | _, _ => NaN
  end.

(** [ToIntegerOrInfinity], applied by [splice] to its start argument. *)
Definition ToInteger (v : JVal) : result Z :=
  rbind (ToNumber v) (fun n => Val (match n with NaN => 0 | Int z => z end)).

(** The position [splice] works at, for a start already converted: a
    negative start counts from the end, and the result is kept within
    [0 .. length]. *)
Definition splice_start {A} (l : list A) (rs : Z) : nat :=
  let len := Z.of_nat (length l) in
  Z.to_nat (if rs <? 0 then Z.max (len + rs) 0 else Z.min rs len).

(** [l.splice(start, 0, x)]. *)
Definition splice_insert {A} (l : list A) (rs : Z) (x : A) : list A :=
  let k := splice_start l rs in
  firstn k l ++ x :: skipn k l.

(** [l.splice(start, 1)]: nothing is removed when the position is the
    end of the array. *)
Definition splice_delete {A} (l : list A) (rs : Z) : list A :=
  let k := splice_start l rs in
  firstn k l ++ skipn (S k) l.

(** [l[i]] for an integer [i]. *)
Definition index {A} (l : list A) (i : Z) : option A :=
  if i <? 0 then None else nth_error l (Z.to_nat i).

(** [l[i] = x] for an index [i] inside the array. *)
Fixpoint update {A} (l : list A) (i : nat) (x : A) : list A :=
  match l, i with
  | [], _ => []
  | _ :: l', O => x :: l'
  | y :: l', S i' => y :: update l' i' x
  end.

End JS.

(* ================================================================== *)
(** ** JSON texts *)
(* ================================================================== *)

Module Json.
Import JS.

(** A text, as stored under the storage key or read from an imported
    file, is identified by what [JSON.parse] makes of it: the empty
    string and every other malformed text are rejected, a well-formed
    text yields its value.  Layout and indentation are not tracked. *)
Inductive text : Type :=
| TEmpty
| TMalformed
| TJson (v : JVal).

Definition JSON_parse (t : text) : result JVal :=
  match t with
  | TEmpty | TMalformed => Throw SyntaxError
  | TJson v => Val v
  end.

(** What [JSON.stringify] keeps of a value: [NaN] and an [undefined]
    array element are written as [null], a property whose value is
    [undefined] is left out. *)
Fixpoint jsonify (v : JVal) : JVal :=
  match v with
  | JUndefined => JNull
  | JNum NaN => JNull
  | JArr l => JArr (map jsonify l)
  | JObj o =>
      JObj ((fix props (o : list (string * JVal)) : list (string * JVal) :=
               match o with
               | [] => []
               | (_, JUndefined) :: o' => props o'
               | (k, x) :: o' => (k, jsonify x) :: props o'
               end) o)
  | JNull | JBool _ | JNum (Int _) | JStr _ => v
  end.

Definition JSON_stringify (v : JVal) : text := TJson (jsonify v).

(** Truthiness of what [localStorage.getItem] returns: [null] when the
    key is absent, a string otherwise. *)
Definition raw_truthy (raw : option text) : bool :=
  match raw with
  | None | Some TEmpty => false
  | Some TMalformed | Some (TJson _) => true
  end.

End Json.

(* ================================================================== *)
(** ** The program *)
(* ================================================================== *)

Module Presenter.
Import JS Json.

(** The global [state]: an object whose [slides] property is an array.
    Both assignments of [state] in the program ([load] and the import
    handler) check [Array.isArray] around the assignment, so the array is
    part of the type here.  [current] is whatever value the property
    holds ([undefined] when it is missing) and [rest] are the other
    properties of the object, which [state = data] adopts as they are. *)
Record State : Type := mkState {
  slides : list JVal;
  current : JVal;
  rest : list (string * JVal)
}.

(** Everything the program reads or writes besides [state]:
    - [defaultSlides], the module constant built when the script starts;
    - [storage], the item held by [localStorage] under [STORAGE_KEY], and
      [writes], the texts passed to [setItem] so far (latest first);
    - [alerts] and [console], what [alert] and [console.error] received
      (latest first);
    - [ids] and [nextId], the strings the successive calls of [genId]
      return and the number of calls made;
    - [dom], the number of slide elements [renderSlides] last created. *)
Record World : Type := mkWorld {
  state : State;
  defaultSlides : list JVal;
  storage : option text;
  writes : list text;
  alerts : list string;
  console : list exn;
  ids : nat -> string;
  nextId : nat;
  dom : nat
}.

Definition set_slides (l : list JVal) (st : State) : State :=
  mkState l (current st) (rest st).

Definition set_current (c : JVal) (st : State) : State :=
  mkState (slides st) c (rest st).

Definition with_state (st : State) (w : World) : World :=
  mkWorld st (defaultSlides w) (storage w) (writes w) (alerts w)
          (console w) (ids w) (nextId w) (dom w).

Definition with_dom (n : nat) (w : World) : World :=
  mkWorld (state w) (defaultSlides w) (storage w) (writes w) (alerts w)
          (console w) (ids w) (nextId w) n.

(** *** Statements: a state-and-exception monad

    A statement runs in a world and either completes or throws; the
    world it leaves behind is kept in both cases, as an exception does
    not undo the assignments made before it. *)
Definition M (A : Type) : Type := World -> result A * World.

Definition ret {A} (a : A) : M A := fun w => (Val a, w).

Definition bind {A B} (c : M A) (k : A -> M B) : M B :=
  fun w => match c w with
           | (Val a, w') => k a w'
           | (Throw e, w') => (Throw e, w')
           end.

Definition throw {A} (e : exn) : M A := fun w => (Throw e, w).

(** [try { c } catch (e) { h e }]. *)
Definition try_catch {A} (c : M A) (h : exn -> M A) : M A :=
  fun w => match c w with
           | (Val a, w') => (Val a, w')
           | (Throw OutOfModel, w') => (Throw OutOfModel, w')
           | (Throw e, w') => h e w'
           end.

(** An expression that may throw, evaluated inside a statement. *)
Definition eval {A} (r : result A) : M A := fun w => (r, w).

Notation "x <- c ;; k" := (bind c (fun x => k))
  (at level 61, c at next level, right associativity).
Notation "c ;; k" := (bind c (fun _ => k))
  (at level 61, right associativity).

Definition get_state : M State := fun w => (Val (state w), w).
Definition put_state (st : State) : M unit := fun w => (Val tt, with_state st w).
Definition modify_state (f : State -> State) : M unit :=
  fun w => (Val tt, with_state (f (state w)) w).

Definition exec {A} (c : M A) (w : World) : World := snd (c w).
Definition outcome {A} (c : M A) (w : World) : result A := fst (c w).

Fixpoint mapM {A B} (f : A -> M B) (l : list A) : M (list B) :=
  match l with
  | [] => ret []
  | x :: l' => y <- f x ;; ys <- mapM f l' ;; ret (y :: ys)
  end.

(** *** The environment *)

Definition alert (msg : string) : M unit :=
  fun w => (Val tt,
            mkWorld (state w) (defaultSlides w) (storage w) (writes w)
                    (msg :: alerts w) (console w) (ids w) (nextId w) (dom w)).

Definition console_error (e : exn) : M unit :=
  fun w => (Val tt,
            mkWorld (state w) (defaultSlides w) (storage w) (writes w)
                    (alerts w) (e :: console w) (ids w) (nextId w) (dom w)).

(** [localStorage.getItem(STORAGE_KEY)]. *)
Definition getItem : M (option text) := fun w => (Val (storage w), w).

(** [localStorage.setItem(STORAGE_KEY, t)]. *)
Definition setItem (t : text) : M unit :=
  fun w => (Val tt,
            mkWorld (state w) (defaultSlides w) (Some t) (t :: writes w)
                    (alerts w) (console w) (ids w) (nextId w) (dom w)).

(** [genId()]: time stamp and random digits; each call returns the next
    string of the world's supply. *)
Definition genId : M string :=
  fun w => (Val (ids w (nextId w)),
            mkWorld (state w) (defaultSlides w) (storage w) (writes w)
                    (alerts w) (console w) (ids w) (S (nextId w)) (dom w)).

(** The state as the object it is, for [JSON.stringify]. *)
Definition state_obj (st : State) : JVal :=
  JObj (("slides", JArr (slides st)) :: ("current", current st) :: rest st).

Fixpoint without (ks : list string) (o : list (string * JVal))
  : list (string * JVal) :=
  match o with
  | [] => []
  | (k, v) :: o' =>
      if existsb (String.eqb k) ks then without ks o'
      else (k, v) :: without ks o'
  end.

(** The state held after [state = data], for an object [data] whose
    [slides] property is the array [l]. *)
Definition state_of_obj (o : list (string * JVal)) (l : list JVal) : State :=
  mkState l (lookup "current" o) (without ["slides"; "current"] o).

(** [Math.min(Math.max(0, state.current||0), state.slides.length-1)],
    the expression shared by [load] and the import handler. *)
Definition clampCurrent (cur : JVal) (len : nat) : result JVal :=
  rbind (ToNumber (js_or cur zero))
        (fun n => Val (JNum (math_min (math_max (Int 0) n)
                                      (Int (Z.of_nat len - 1))))).

Definition defaultText : string :=
  "Título de la presentación" ++ String "010" (String "010" "Haz doble clic aquí para editar.").

(** [{ slides: defaultSlides.slice(), current: 0 }].  [slice] copies the
    array, not the slide object in it; [load] is the only user of
    [defaultSlides] and runs once, when the script starts, so the
    sharing of that object has no effect. *)
Definition defaultState (w : World) : State :=
  mkState (defaultSlides w) zero [].

(** *** What is put on the page *)

(** The counter and the three buttons, as [updateUI] sets them:
    [`Diapositiva ${state.current+1} / ${state.slides.length}`],
    [state.current <= 0], [state.current >= state.slides.length - 1],
    [state.slides.length === 0]. *)
Record Controls : Type := mkControls {
  indexDisplay : string;
  prevDisabled : bool;
  nextDisabled : bool;
  delDisabled : bool
}.

Definition controls (st : State) : result Controls :=
  let len := Z.of_nat (length (slides st)) in
  rbind (js_add (current st) one) (fun c1 =>
  rbind (ToString c1) (fun s1 =>
  rbind (js_le (current st) 0) (fun p =>
  rbind (js_ge (current st) (len - 1)) (fun n =>
    Val (mkControls
           ("Diapositiva " ++ s1 ++ " / " ++ NumberToString (Int len))
           p n (len =? 0)))))).

(** Where a slide element stands: [off-left] when [idx < state.current],
    [off-right] when [idx > state.current], on stage with neither
    class.  [renderSlides] and [updateSlidesPosition] apply the same two
    tests. *)
Inductive place : Type :=
| OffLeft
| OnStage
| OffRight.

Definition slide_place (cur : JVal) (idx : nat) : result place :=
  rbind (lt_js (Z.of_nat idx) cur) (fun l =>
  rbind (gt_js (Z.of_nat idx) cur) (fun r =>
    Val (if l then OffLeft else if r then OffRight else OnStage))).

(** *** app.js, function by function *)

(** [state = { slides: defaultSlides.slice(), current: 0 }]. *)
Definition useDefault : M unit :=
  fun w => (Val tt, with_state (defaultState w) w).

(** [load].  [state = JSON.parse(raw)] is followed at once by the
    validation, which either keeps the parsed object (with [current]
    clamped) or replaces it; a parsed value that is no object with a
    non-empty [slides] array never outlives the function. *)
Definition load : M unit :=
  try_catch
    (raw <- getItem ;;
     match raw with
     | Some t =>
         if raw_truthy raw then
           v <- eval (JSON_parse t) ;;
           sl <- eval (getProp v "slides") ;;
           match v, sl with
           | JObj o, JArr (s :: l) =>
               let st := state_of_obj o (s :: l) in
               c <- eval (clampCurrent (current st) (length (slides st))) ;;
               put_state (set_current c st)
           | _, _ => useDefault
           end
         else useDefault
     | None => useDefault
     end)
    (fun e => console_error e ;; useDefault).

(** [save]. *)
Definition save : M unit :=
  st <- get_state ;; setItem (JSON_stringify (state_obj st)).

(** [slidesWrapper.appendChild(slideEl)]: one more slide element. *)
Definition set_dom (n : nat) : M unit :=
  fun w => (Val tt, with_dom n w).

(** The body of the [forEach] of [renderSlides], from slide [idx] on:
    the two class tests on [state.current], then
    [text.innerText = s.text || ''], which reads a property of the slide
    and converts the value to a string, then the element is appended. *)
Fixpoint renderFrom (l : list JVal) (idx : nat) : M unit :=
  match l with
  | [] => ret tt
  | s :: l' =>
      st <- get_state ;;
      _ <- eval (slide_place (current st) idx) ;;
      t <- eval (getProp s "text") ;;
      _ <- eval (ToString (js_or t (JStr ""))) ;;
      set_dom (S idx) ;;
      renderFrom l' (S idx)
  end.

(** [renderSlides]: the page is emptied, then one slide element is
    built per slide; the elements carry the edit handlers
    ([onTextInput] below).  An exception leaves the elements built so
    far. *)
Definition renderSlides : M unit :=
  set_dom 0 ;;
  st <- get_state ;;
  renderFrom (slides st) 0.

(** [attachEvents] registers listeners; [focusCurrentEditable] touches
    the page only. *)
Definition attachEvents : M unit := ret tt.
Definition focusCurrentEditable : M unit := ret tt.

(** [updateSlidesPosition]: the two class tests, on each slide element
    of the page. *)
Definition updateSlidesPosition : M unit :=
  fun w =>
    (_ <- mapM (fun idx => eval (slide_place (current (state w)) idx))
               (seq 0 (dom w)) ;;
     ret tt) w.

(** [updateUI]: refreshes the counter and the buttons, then the
    positions, then saves. *)
Definition updateUI : M unit :=
  st <- get_state ;;
  _ <- eval (controls st) ;;
  updateSlidesPosition ;;
  save.

(** [init]. *)
Definition init : M unit :=
  load ;; renderSlides ;; attachEvents ;; updateUI.

(** [goTo(idx)]. *)
Definition goTo (idx : JVal) : M unit :=
  st <- get_state ;;
  let len := Z.of_nat (length (slides st)) in
  neg <- eval (js_lt idx 0) ;;
  let idx := if neg then zero else idx in
  big <- eval (js_gt idx (len - 1)) ;;
  let idx := if big then JNum (Int (len - 1)) else idx in
  if strict_eq idx (current st) then focusCurrentEditable
  else
    modify_state (set_current idx) ;;
    updateUI.

Definition newSlideText : string := "Nueva diapositiva".

(** [addSlide]. *)
Definition addSlide : M unit :=
  i <- genId ;;
  let newSlide := JObj [("id", JStr i); ("text", JStr newSlideText)] in
  st <- get_state ;;
  start <- eval (js_add (current st) one) ;;
  rs <- eval (ToInteger start) ;;
  put_state (set_slides (splice_insert (slides st) rs newSlide) st) ;;
  st1 <- get_state ;;
  c <- eval (js_add (current st1) one) ;;
  put_state (set_current c st1) ;;
  renderSlides ;;
  updateUI.

(** [deleteSlide]; [confirmed] is the answer given to the [confirm]
    dialog. *)
Definition deleteSlide (confirmed : bool) : M unit :=
  st <- get_state ;;
  if (length (slides st) =? 0)%nat then ret tt
  else if negb confirmed then ret tt
  else
    rs <- eval (ToInteger (current st)) ;;
    put_state (set_slides (splice_delete (slides st) rs) st) ;;
    st' <- get_state ;;
    past <- eval (js_ge (current st') (Z.of_nat (length (slides st')))) ;;
    (if past
     then modify_state
            (set_current (JNum (Int (Z.max 0 (Z.of_nat (length (slides st')) - 1)))))
     else ret tt) ;;
    renderSlides ;;
    updateUI.

(** The [input] handler that [renderSlides] attaches to the text block
    of slide [idx]: [state.slides[idx].text = text.innerText; save()].
    Reading a property of [undefined] or [null] throws.  On an element
    that is an object the property is set; on a primitive the assignment
    has no effect (the file carries no strict-mode directive), and a
    property set on an array element is not part of what is serialized. *)
Definition onTextInput (idx : Z) (txt : string) : M unit :=
  st <- get_state ;;
  match index (slides st) idx with
  | None | Some JUndefined | Some JNull => throw TypeError
  | Some (JObj o) =>
      put_state
        (set_slides (update (slides st) (Z.to_nat idx)
                            (JObj (set_prop "text" (JStr txt) o))) st) ;;
      save
  | Some _ => save
  end.

(** [exportJSON]: the text offered for download. *)
Definition exportJSON (w : World) : text :=
  JSON_stringify (state_obj (state w)).

(** [s => ({ id: s.id || genId(), text: s.text || '' })]. *)
Definition normalizeSlide (s : JVal) : M JVal :=
  i <- eval (getProp s "id") ;;
  i' <- (if truthy i then ret i else (g <- genId ;; ret (JStr g))) ;;
  t <- eval (getProp s "text") ;;
  ret (JObj [("id", i'); ("text", js_or t (JStr ""))]).

Definition importFailed : string := "No se pudo importar: archivo inválido.".

(** The [onload] callback of the import handler, for a file whose
    content is [t]. *)
Definition onImportLoad (t : text) : M unit :=
  try_catch
    (data <- eval (JSON_parse t) ;;
     sl <- eval (getProp data "slides") ;;
     match data, sl with
     | JObj o, JArr l =>
         put_state (state_of_obj o l) ;;
         st <- get_state ;;
         l' <- mapM normalizeSlide (slides st) ;;
         modify_state (set_slides l') ;;
         st1 <- get_state ;;
         c <- eval (clampCurrent (current st1) (length (slides st1))) ;;
         put_state (set_current c st1) ;;
         renderSlides ;;
         updateUI
     | _, _ => throw (Error "Formato inválido")
     end)
    (fun e => alert importFailed ;; console_error e).

(** The top level of the script: [defaultSlides] is built with one call
    of [genId], [state] starts as [{ slides: [], current: 0 }], and
    [init()] runs.  When [init] throws, the script stops there. *)
Definition boot (stored : option text) (gen : nat -> string)
  : result unit * World :=
  let w0 := mkWorld (mkState [] zero []) [] stored [] [] [] gen 0 0 in
  (i <- genId ;;
   (fun w => (Val tt,
              mkWorld (state w)
                      [JObj [("id", JStr i); ("text", JStr defaultText)]]
                      (storage w) (writes w) (alerts w) (console w)
                      (ids w) (nextId w) (dom w))) ;;
   init) w0.

End Presenter.

(* ================================================================== *)
(** ** The vocabulary of the specification *)
(* ================================================================== *)

Module Spec.
Import JS Json Presenter.

(** [clamp(i, lo, hi)]. *)
Definition clamp (i lo hi : Z) : Z := Z.min (Z.max i lo) hi.

Definition size (st : State) : Z := Z.of_nat (length (slides st)).

(** Invariants 1 and 2 of the deck: at least one slide, and [current] an
    index into [slides]. *)
Definition deck_invariant (st : State) : bool :=
  match current st with
  | JNum (Int c) => (1 <=? size st) && (0 <=? c) && (c <=? size st - 1)
  | _ => false
  end.

(** [current] is an integer between [0] and [slides.length]. *)
Definition index_bounded (st : State) : bool :=
  match current st with
  | JNum (Int c) => (0 <=? c) && (c <=? size st)
  | _ => false
  end.

(** Calls of the two operations that change the length of the deck. *)
Inductive call : Type :=
| AddSlide
| DeleteSlide (confirmed : bool).

Definition perform (c : call) : M unit :=
  match c with
  | AddSlide => addSlide
  | DeleteSlide confirmed => deleteSlide confirmed
  end.

Fixpoint run (cs : list call) (w : World) : World :=
  match cs with
  | [] => w
  | c :: cs' => run cs' (exec (perform c) w)
  end.


(** The deck of the data model: slides with a string [id] and a string
    [text], and an integer [current]. *)
Record Slide : Type := mkSlide { slide_id : string; slide_text : string }.
Record Deck : Type := mkDeck { deck_slides : list Slide; deck_current : Z }.

Definition slide_obj (s : Slide) : JVal :=
  JObj [("id", JStr (slide_id s)); ("text", JStr (slide_text s))].

Definition deck_state (d : Deck) : State :=
  mkState (map slide_obj (deck_slides d)) (JNum (Int (deck_current d))) [].

(** [s.k] on a slide that is neither [null] nor [undefined]. *)
Definition prop (s : JVal) (k : string) : JVal :=
  match s with
  | JObj o => lookup k o
  | _ => JUndefined
  end.

Definition nullish (v : JVal) : bool :=
  match v with
  | JUndefined | JNull => true
  | _ => false
  end.

(** [s'] is the slide [s] normalized, the ids generated by the calls of
    [genId] numbered [lo] to [hi - 1] being available: the [id] is kept
    when it is truthy and is one of those generated ids otherwise; the
    [text] is kept when it is truthy and is the empty string otherwise. *)
Definition normalized (gen : nat -> string) (lo hi : nat) (s s' : JVal) : Prop :=
  exists i t,
    s' = JObj [("id", i); ("text", t)]
    /\ (truthy (prop s "id") = true -> i = prop s "id")
    /\ (truthy (prop s "id") = false ->
        exists n, (lo <= n < hi)%nat /\ i = JStr (gen n))
    /\ (truthy (prop s "text") = true -> t = prop s "text")
    /\ (truthy (prop s "text") = false -> t = JStr "").

(** The number of slides that lack a truthy [id]. *)
Definition missing_ids (l : list JVal) : nat :=
  length (filter (fun s => negb (truthy (prop s "id"))) l).

(** The stored value parses to an object whose [slides] is a non-empty
    array: the object and the array, when it does. *)
Definition stored_deck (raw : option text)
  : option (list (string * JVal) * list JVal) :=
  match raw with
  | Some (TJson (JObj o)) =>
      match lookup "slides" o with
      | JArr (s :: l) => Some (o, s :: l)
      | _ => None
      end
  | _ => None
  end.

(** The [current] of a document is absent, [null], a boolean or an
    integer: the values that [ToNumber] turns into a number whatever
    the document. *)
Definition plain_index (v : JVal) : bool :=
  match v with
  | JUndefined | JNull | JBool _ | JNum (Int _) => true
  | _ => false
  end.

End Spec.

Import JS Json Presenter Spec.

(* ================================================================== *)
(** ** The handlers wired by [attachEvents] *)
(* ================================================================== *)

Module Handlers.
Import JS Json Presenter.

(** The [click] listeners of the two arrows:
    [goTo(state.current-1)] and [goTo(state.current+1)]. *)
Definition prevClick : M unit :=
  st <- get_state ;; idx <- eval (js_sub (current st) one) ;; goTo idx.

Definition nextClick : M unit :=
  st <- get_state ;; idx <- eval (js_add (current st) one) ;; goTo idx.

(** What [onKey] reads of a keyboard event. *)
Record KeyEvent : Type := mkKey {
  key : string;
  ctrlKey : bool;
  metaKey : bool
}.

Definition lower_ascii (c : ascii) : ascii :=
  let n := nat_of_ascii c in
  if ((65 <=? n) && (n <=? 90))%nat then ascii_of_nat (n + 32) else c.

(** [toLowerCase], on the letters A to Z.  The results are only compared
    with ["n"] and ["d"], which no other character has as lower case. *)
Fixpoint toLowerCase (s : string) : string :=
  match s with
  | EmptyString => EmptyString
  | String c s' => String (lower_ascii c) (toLowerCase s')
  end.

(** [onKey(e)].  The four tests are run one after the other; the value
    returned tells whether [e.preventDefault()] was called, and
    [confirmed] is the answer to the dialog of [deleteSlide]. *)
Definition onKey (e : KeyEvent) (confirmed : bool) : M bool :=
  (if String.eqb (key e) "ArrowLeft" then prevClick else ret tt) ;;
  (if String.eqb (key e) "ArrowRight" then nextClick else ret tt) ;;
  p1 <- (if (ctrlKey e || metaKey e) && String.eqb (toLowerCase (key e)) "n"
         then addSlide ;; ret true else ret false) ;;
  p2 <- (if (ctrlKey e || metaKey e) && String.eqb (toLowerCase (key e)) "d"
         then deleteSlide confirmed ;; ret true else ret false) ;;
  ret (p1 || p2).

(** [onImportFile(e)], for the file chosen in the dialog, if any; the
    file is read and handed to the [onload] callback. *)
Definition onImportFile (file : option text) : M unit :=
  match file with
  | None => ret tt
  | Some t => onImportLoad t
  end.

(** The events of a session, each with the input it brings: a click on
    a slide (its index), on the arrows and on the add and delete
    buttons, typing in the text block of a slide, a key, and the choice
    of a file to import. *)
Inductive event : Type :=
| SlideClick (idx : Z)
| PrevClick
| NextClick
| AddClick
| DeleteClick (confirmed : bool)
| TextInput (idx : Z) (txt : string)
| KeyDown (e : KeyEvent) (confirmed : bool)
| FileChosen (file : option text).

(** The world after the listener of an event has run; an exception
    thrown by a listener ends that listener and nothing else. *)
Definition handle (ev : event) (w : World) : World :=
  match ev with
  | SlideClick idx => exec (goTo (JNum (Int idx))) w
  | PrevClick => exec prevClick w
  | NextClick => exec nextClick w
  | AddClick => exec addSlide w
  | DeleteClick confirmed => exec (deleteSlide confirmed) w
  | TextInput idx txt => exec (onTextInput idx txt) w
  | KeyDown e confirmed => exec (onKey e confirmed) w
  | FileChosen file => exec (onImportFile file) w
  end.

Fixpoint play (evs : list event) (w : World) : World :=
  match evs with
  | [] => w
  | ev :: evs' => play evs' (handle ev w)
  end.

End Handlers.

(* ================================================================== *)
(** ** Swipe detection *)
(* ================================================================== *)

Module Swipe.
Import JS Json Presenter Handlers.

(** The touch point of a touch event, in whole pixels, and the three
    variables [addSwipeHandlers] keeps between events ([null] is
    [None]); [Date.now()] is passed in as [now]. *)
Record touch : Type := mkTouch { pageX : Z; pageY : Z }.

Record tracker : Type := mkTracker {
  startX : option Z;
  startY : option Z;
  startTime : Z
}.

Definition idle : tracker := mkTracker None None 0.

Definition threshold : Z := 40.
Definition restraint : Z := 75.
Definition allowedTime : Z := 500.

Inductive direction : Type :=
| Left
| Right.

(** The [touchstart] listener. *)
Definition touchstart (t : touch) (now : Z) (k : tracker) : tracker :=
  mkTracker (Some (pageX t)) (Some (pageY t)) now.

(** [null] counts as [0] in a subtraction. *)
Definition or_zero (x : option Z) : Z :=
  match x with
  | None => 0
  | Some v => v
  end.

(** The [touchend] listener: the direction handed to the callback, if
    any, and the variables afterwards. *)
Definition touchend (t : touch) (now : Z) (k : tracker)
  : option direction * tracker :=
  let distX := pageX t - or_zero (startX k) in
  let distY := pageY t - or_zero (startY k) in
  let elapsed := now - startTime k in
  (if (elapsed <=? allowedTime) && (threshold <=? Z.abs distX)
      && (Z.abs distY <=? restraint)
   then Some (if distX <? 0 then Left else Right)
   else None,
   mkTracker None None (startTime k)).

(** The callback given to [addSwipeHandlers] by [attachEvents]. *)
Definition onSwipe (d : option direction) : M unit :=
  match d with
  | Some Left => nextClick
  | Some Right => prevClick
  | None => ret tt
  end.

End Swipe.

Import Handlers Swipe.

(** The statement [c] keeps the property [P] of worlds, whether it
    completes or throws. *)
Definition preserved (P : World -> Prop) {A} (c : M A) : Prop :=
  forall w, P w -> P (exec c w).

(** A value that converts to a string. *)
Definition stringable (v : JVal) : bool :=
  match ToString v with
  | Val _ => true
  | Throw _ => false
  end.

(** A slide that [renderSlides] can show: reading its [text] does not
    throw and the text converts to a string. *)
Definition renderable (s : JVal) : bool :=
  match getProp s "text" with
  | Val t => stringable (js_or t (JStr ""))
  | Throw _ => false
  end.

Definition numeric (v : JVal) : bool :=
  match v with
  | JNum _ => true
  | _ => false
  end.


(** An import that is rejected before [state = data]: the text does not
    parse, the parsed value is [null], or its [slides] is no array. *)
Definition rejected_early (t : text) : bool :=
  match t with
  | TEmpty | TMalformed => true
  | TJson (JObj o) =>
      match lookup "slides" o with
      | JArr _ => false
      | _ => true
      end
  | TJson _ => true
  end.


Definition no_import (ev : event) : bool :=
  match ev with
  | FileChosen _ => false
  | _ => true
  end.

(** [current] is an integer from [-1] to [slides.length], and [-1] on
    an empty deck only. *)
Definition session_bounds (st : State) : bool :=
  match current st with
  | JNum (Int c) =>
      (-1 <=? c) && (c <=? size st) && ((0 <=? c) || (size st =? 0))
  | _ => false
  end.

(** The store holds the serialization of the live deck. *)
Definition synced (w : World) : Prop :=
  storage w = Some (JSON_stringify (state_obj (state w))).

(** The ids of the slides of the deck, in order. *)
Definition slide_ids (st : State) : list JVal :=
  map (fun s => prop s "id") (slides st).

(** Every id of the deck was produced by a call of [genId] already
    made, and no call produced two of them. *)
Definition from_supply (w : World) : Prop :=
  exists ns,
    NoDup ns
    /\ Forall (fun n => (n < nextId w)%nat) ns
    /\ slide_ids (state w) = map (fun n => JStr (ids w n)) ns.

(** The bounds of [current] in a session, on worlds. *)
Definition in_bounds (w : World) : Prop := session_bounds (state w) = true.

(** The ids of the deck come from the supply, and the supply never
    gives the same string twice. *)
Definition supply_ok (w : World) : Prop :=
  from_supply w
  /\ (forall m n, ids w m = ids w n -> m = n)
  /\ numeric (current (state w)) = true.

(** A typed deck whose [current] is an index into its slides. *)
Definition well_formed (d : Deck) : bool :=
  (1 <=? Z.of_nat (length (deck_slides d)))
  && (0 <=? deck_current d)
  && (deck_current d <=? Z.of_nat (length (deck_slides d)) - 1).

(* ================================================================== *)
(** ** Descriptions of runs *)
(* ================================================================== *)

(** The world after [k] further calls of [genId]. *)
Definition after_ids (k : nat) (w : World) : World :=
  mkWorld (state w) (defaultSlides w) (storage w) (writes w) (alerts w)
          (console w) (ids w) (nextId w + k) (dom w).

(** The integer [splice] makes of a number. *)
Definition int_of (n : num) : Z :=
  match n with
  | NaN => 0
  | Int z => z
  end.

(** The world [addSlide] hands to [renderSlides] when [current] is the
    number [n]: the new slide is in place and [current] is [n + 1]. *)
Definition added (n : num) (w : World) : World :=
  mkWorld
    (mkState
       (splice_insert (slides (state w)) (int_of (num_add n (Int 1)))
          (JObj [("id", JStr (ids w (nextId w))); ("text", JStr newSlideText)]))
       (JNum (num_add n (Int 1))) (rest (state w)))
    (defaultSlides w) (storage w) (writes w) (alerts w) (console w)
    (ids w) (S (nextId w)) (dom w).

(** The world a confirmed [deleteSlide] hands to [renderSlides] when
    [current] is the number [n]. *)
Definition deleted (n : num) (w : World) : World :=
  let l' := splice_delete (slides (state w)) (int_of n) in
  with_state
    (mkState l'
       (if num_leb (Int (Z.of_nat (length l'))) n
        then JNum (Int (Z.max 0 (Z.of_nat (length l') - 1)))
        else JNum n)
       (rest (state w)))
    w.

(** The number that [current||0] converts to, for a [current] that is
    absent, [null], a boolean or an integer. *)
Definition plain_value (v : JVal) : Z :=
  match v with
  | JBool true => 1
  | JNum (Int z) => z
  | _ => 0
  end.

(** The world an import has made when its slides are normalized to [l']
    with [k] calls of [genId], [current] being [c]. *)
Definition imported (o : list (string * JVal)) (l' : list JVal) (k : nat)
  (c : JVal) (w : World) : World :=
  mkWorld (mkState l' c (without ["slides"; "current"] o))
          (defaultSlides w) (storage w) (writes w) (alerts w) (console w)
          (ids w) (nextId w + k) (dom w).

(** The [catch] clause of the import handler. *)
Definition importCatch (e : exn) : M unit :=
  alert importFailed ;; console_error e.

(** The end of an import, inside its [try]: the page is rebuilt and the
    deck saved. *)
Definition importFinish : M unit :=
  try_catch (renderSlides ;; updateUI) importCatch.

(** The state [load] leaves, and what it logs on the console. *)
Definition loaded_state (w : World) : State :=
  match stored_deck (storage w) with
  | Some (o, l) =>
      match clampCurrent (lookup "current" o) (length l) with
      | Val c => mkState l c (without ["slides"; "current"] o)
      | Throw _ => defaultState w
      end
  | None => defaultState w
  end.

Definition load_log (raw : option text) : list exn :=
  match raw with
  | Some TMalformed => [SyntaxError]
  | Some (TJson JUndefined) | Some (TJson JNull) => [TypeError]
  | _ =>
      match stored_deck raw with
      | Some (o, l) =>
          match clampCurrent (lookup "current" o) (length l) with
          | Val _ => []
          | Throw e => [e]
          end
      | None => []
      end
  end.

(** The world [load] leaves. *)
Definition loaded (w : World) : World :=
  mkWorld (loaded_state w) (defaultSlides w) (storage w) (writes w)
          (alerts w) (load_log (storage w) ++ console w)%list
          (ids w) (nextId w) (dom w).

(** The world in which [init] runs: [defaultSlides] has been built with
    the first id. *)
Definition started (stored : option text) (gen : nat -> string) : World :=
  mkWorld (mkState [] zero [])
          [JObj [("id", JStr (gen 0%nat)); ("text", JStr defaultText)]]
          stored [] [] [] gen 1 0.

(** The stored value does not take [load] out of the model. *)
Definition load_in_model (raw : option text) : Prop :=
  match stored_deck raw with
  | Some (o, l) =>
      clampCurrent (lookup "current" o) (length l) <> Throw OutOfModel
  | None => True
  end.

(** The world after [save]. *)
Definition saved (w : World) : World :=
  mkWorld (state w) (defaultSlides w)
          (Some (JSON_stringify (state_obj (state w))))
          (JSON_stringify (state_obj (state w)) :: writes w)
          (alerts w) (console w) (ids w) (nextId w) (dom w).

(** Worlds that differ by the page and the store only. *)
Definition same_deck (w w' : World) : Prop :=
  state w' = state w
  /\ defaultSlides w' = defaultSlides w
  /\ alerts w' = alerts w
  /\ console w' = console w
  /\ ids w' = ids w
  /\ nextId w' = nextId w.


(* ================================================================== *)
(** ** Sample worlds *)
(* ================================================================== *)

Definition sample_ids (n : nat) : string :=
  "id" ++ NilZero.string_of_uint (Nat.to_uint n).

Definition slideA : JVal := JObj [("id", JStr "a"); ("text", JStr "A")].
Definition slideB : JVal := JObj [("id", JStr "b"); ("text", JStr "B")].

Definition world_of (l : list JVal) (c : Z) : World :=
  mkWorld (mkState l (JNum (Int c)) [])
          [JObj [("id", JStr (sample_ids 0)); ("text", JStr defaultText)]]
          None [] [] [] sample_ids 1 (length l).

Definition deck1 : World := world_of [slideA] 0.
Definition deck2 : World := world_of [slideA; slideB] 0.

Definition sample_deck : Deck :=
  mkDeck [mkSlide "a" "A"; mkSlide "b" "B"] 5.

(** Stored values. *)
Definition stored_abc : text :=
  TJson (JObj [("slides", JArr [slideA]); ("current", JStr "abc")]).

Definition stored_two_at_7 : text :=
  TJson (JObj [("slides", JArr [slideA; slideB]); ("current", JNum (Int 7))]).

Definition stored_null_slide : text :=
  TJson (JObj [("slides", JArr [JNull])]).

Definition own_toString : JVal := JObj [("toString", one)].

Definition stored_own_toString : text :=
  TJson (JObj [("slides", JArr [slideA]); ("current", own_toString)]).

(** Imported files. *)
Definition doc_null_slide : text :=
  TJson (JObj [("slides", JArr [JNull])]).

Definition doc_slide_then_null : list (string * JVal) :=
  [("slides", JArr [JObj [("text", JStr "A")]; JNull]); ("current", zero)].


Definition doc_empty : list (string * JVal) :=
  [("slides", JArr []); ("current", JNum (Int 3))].

Definition doc_A_abc : list (string * JVal) :=
  [("slides", JArr [JObj [("text", JStr "A")]]); ("current", JStr "abc")].

Definition doc_A_99 : list (string * JVal) :=
  [("slides", JArr [JObj [("text", JStr "A")]]); ("current", JNum (Int 99))].

Definition doc_A_own_toString : list (string * JVal) :=
  [("slides", JArr [JObj [("text", JStr "A")]]); ("current", own_toString)].

Definition doc_text_own_toString : list (string * JVal) :=
  [("slides", JArr [JObj [("id", JStr "a"); ("text", own_toString)]])].

Definition doc_empty_own_toString : list (string * JVal) :=
  [("slides", JArr []); ("current", own_toString)].

(* ================================================================== *)
(** ** Pieces shared by all the operations *)
(* ================================================================== *)

Lemma with_dom_same (w : World) : with_dom (dom w) w = w.
Proof. now destruct w. Qed.

Lemma with_dom_twice (m n : nat) (w : World) :
  with_dom n (with_dom m w) = with_dom n w.
Proof. reflexivity. Qed.

Lemma save_run (w : World) : save w = (Val tt, saved w).
Proof. reflexivity. Qed.

Lemma exec_bind {A B} (c : M A) (k : A -> M B) (w : World) :
  exec (bind c k) w =
  match c w with
  | (Val a, w') => exec (k a) w'
  | (Throw _, w') => w'
  end.
Proof.
  unfold exec, bind. destruct (c w) as [[a | e] w']; reflexivity.
Qed.

Lemma ToNumber_numeric (v : JVal) :
  numeric v = true -> exists n, v = JNum n.
Proof. destruct v; try discriminate. intros _. now eexists. Qed.

Lemma slide_place_val (cur : JVal) (n : num) (idx : nat) :
  ToNumber cur = Val n -> exists p, slide_place cur idx = Val p.
Proof.
  intros H. unfold slide_place, lt_js, gt_js. rewrite H. cbn. now eexists.
Qed.

(** Evaluating expressions leaves the world as it is. *)
Lemma mapM_eval {A B} (f : A -> result B) (l : list A) (w : World) :
  exists r, mapM (fun x => eval (f x)) l w = (r, w).
Proof.
  revert w. induction l as [| x l IH]; intros w; cbn [mapM].
  - now eexists.
  - unfold bind at 1, eval at 1. destruct (f x) as [b | e]; [| eexists; reflexivity].
    destruct (IH w) as (r & Hr). unfold bind at 1. rewrite Hr.
    destruct r; now eexists.
Qed.

Lemma mapM_eval_val {A B} (f : A -> result B) (l : list A) (w : World) :
  (forall x, exists b, f x = Val b) ->
  exists r, mapM (fun x => eval (f x)) l w = (Val r, w).
Proof.
  intros Hf. revert w. induction l as [| x l IH]; intros w; cbn [mapM].
  - now eexists.
  - unfold bind at 1, eval at 1. destruct (Hf x) as (b & ->).
    destruct (IH w) as (r & Hr). unfold bind at 1. rewrite Hr.
    now eexists.
Qed.

Lemma updateSlidesPosition_val (w : World) (n : num) :
  ToNumber (current (state w)) = Val n ->
  updateSlidesPosition w = (Val tt, w).
Proof.
  intros H. unfold updateSlidesPosition, bind.
  destruct (mapM_eval_val (slide_place (current (state w))) (seq 0 (dom w)) w)
    as (r & ->); [| reflexivity].
  intros idx. now apply (slide_place_val _ n).
Qed.

Lemma updateSlidesPosition_frame (w : World) :
  exists r, updateSlidesPosition w = (r, w).
Proof.
  unfold updateSlidesPosition, bind.
  destruct (mapM_eval (slide_place (current (state w))) (seq 0 (dom w)) w)
    as (r & ->).
  destruct r; now eexists.
Qed.

Lemma controls_num (st : State) (n : num) :
  current st = JNum n -> exists c, controls st = Val c.
Proof.
  intros H. unfold controls, js_le, js_ge. rewrite H. cbn. now eexists.
Qed.

(** [updateUI] saves as soon as [current] is a number. *)
Lemma updateUI_num (w : World) (n : num) :
  current (state w) = JNum n -> updateUI w = (Val tt, saved w).
Proof.
  intros H. unfold updateUI, bind at 1, get_state.
  destruct (controls_num (state w) n H) as (c & Hc).
  unfold bind at 1, eval. rewrite Hc.
  unfold bind at 1. rewrite (updateSlidesPosition_val w n) by now rewrite H.
  apply save_run.
Qed.

(** In every case [updateUI] either saves or throws before it changes
    anything. *)
Lemma updateUI_unfold (w : World) :
  updateUI w =
  match controls (state w) with
  | Val _ => (updateSlidesPosition ;; save) w
  | Throw e => (Throw e, w)
  end.
Proof. reflexivity. Qed.

Lemma updateUI_cases (w : World) :
  updateUI w = (Val tt, saved w) \/ exists e, updateUI w = (Throw e, w).
Proof.
  rewrite updateUI_unfold.
  destruct (controls (state w)) as [c | e]; [| right; eexists; reflexivity].
  unfold bind. destruct (updateSlidesPosition_frame w) as (r & ->).
  destruct r; [left; apply save_run | right; eexists; reflexivity].
Qed.

Lemma renderFrom_cons (s : JVal) (l : list JVal) (idx : nat) (w : World) :
  renderFrom (s :: l) idx w =
  match slide_place (current (state w)) idx with
  | Throw e => (Throw e, w)
  | Val _ =>
      match getProp s "text" with
      | Throw e => (Throw e, w)
      | Val t =>
          match ToString (js_or t (JStr "")) with
          | Throw e => (Throw e, w)
          | Val _ => renderFrom l (S idx) (with_dom (S idx) w)
          end
      end
  end.
Proof.
  cbn [renderFrom]. unfold bind, get_state, eval, set_dom.
  destruct (slide_place (current (state w)) idx); [| reflexivity].
  destruct (getProp s "text") as [t |]; [| reflexivity].
  destruct (ToString (js_or t (JStr ""))); reflexivity.
Qed.

Lemma renderSlides_unfold (w : World) :
  renderSlides w = renderFrom (slides (state w)) 0 (with_dom 0 w).
Proof. reflexivity. Qed.

Lemma renderFrom_frame (l : list JVal) :
  forall idx w, exists r n, renderFrom l idx w = (r, with_dom n w).
Proof.
  induction l as [| s l IH]; intros idx w.
  - exists (Val tt), (dom w). cbn. unfold ret. now rewrite with_dom_same.
  - rewrite renderFrom_cons.
    destruct (slide_place (current (state w)) idx);
      [| eexists _, (dom w); now rewrite with_dom_same].
    destruct (getProp s "text") as [t |];
      [| eexists _, (dom w); now rewrite with_dom_same].
    destruct (ToString (js_or t (JStr "")));
      [| eexists _, (dom w); now rewrite with_dom_same].
    destruct (IH (S idx) (with_dom (S idx) w)) as (r & n & ->).
    now exists r, n.
Qed.

Lemma renderSlides_frame (w : World) :
  exists r n, renderSlides w = (r, with_dom n w).
Proof.
  rewrite renderSlides_unfold.
  destruct (renderFrom_frame (slides (state w)) 0 (with_dom 0 w))
    as (r & n & ->).
  now exists r, n.
Qed.

Lemma renderable_inv (s : JVal) :
  renderable s = true ->
  exists t str, getProp s "text" = Val t
                /\ ToString (js_or t (JStr "")) = Val str.
Proof.
  unfold renderable, stringable.
  destruct (getProp s "text") as [t |]; [| discriminate].
  destruct (ToString (js_or t (JStr ""))) as [str |] eqn:E; [| discriminate].
  intros _. now exists t, str.
Qed.

Lemma renderFrom_ok (l : list JVal) :
  forall idx w n,
    ToNumber (current (state w)) = Val n ->
    forallb renderable l = true ->
    renderFrom l idx w =
    (Val tt, match l with
             | [] => w
             | _ :: _ => with_dom (idx + length l) w
             end).
Proof.
  induction l as [| s l IH]; intros idx w n Hn Hl; [reflexivity |].
  cbn [forallb] in Hl. apply andb_prop in Hl as [Hs Hl].
  destruct (renderable_inv s Hs) as (t & str & Ht & Hstr).
  destruct (slide_place_val _ n idx Hn) as (p & Hp).
  rewrite renderFrom_cons, Hp, Ht, Hstr.
  rewrite (IH (S idx) (with_dom (S idx) w) n Hn Hl).
  destruct l; cbn [length]; rewrite ?with_dom_twice; do 2 f_equal; lia.
Qed.

(** [renderSlides] runs to its end when every slide can be shown and
    [current] is a number. *)
Lemma renderSlides_ok (w : World) (n : num) :
  current (state w) = JNum n ->
  forallb renderable (slides (state w)) = true ->
  renderSlides w = (Val tt, with_dom (length (slides (state w))) w).
Proof.
  intros Hc Hl. rewrite renderSlides_unfold.
  rewrite (renderFrom_ok _ 0 (with_dom 0 w) n) by (cbn; now rewrite ?Hc).
  destruct (slides (state w)); reflexivity.
Qed.

(** The conversion to a string throws nothing but a [TypeError]. *)
Lemma ToString_throws : forall (v : JVal) (e : exn),
  ToString v = Throw e -> e = TypeError.
Proof.
  fix IH 1. intros v. destruct v as [| | b | n | s | l | o]; cbn [ToString];
    try discriminate.
  - destruct b; discriminate.
  - revert l. fix IHl 1. intros l e. destruct l as [| x l]; [discriminate |].
    assert (Hx : forall e',
               match x with
               | JUndefined | JNull => Val ""
               | _ => ToString x
               end = Throw e' -> e' = TypeError).
    { pose proof (IH x) as Hx. clear IH IHl.
      intros e'. destruct x; try discriminate; apply Hx. }
    destruct (match x with
              | JUndefined | JNull => Val ""
              | _ => ToString x
              end) as [sx | e'] eqn:Ex.
    + cbn [rbind]. pose proof (IHl l) as Hl. clear IHl.
      destruct l as [| y l]; [discriminate |].
      match goal with
      | |- rbind ?j _ = _ -> _ => destruct j as [r | e''] eqn:Ej
      end; cbn [rbind]; [discriminate |].
      intros [= <-]. now apply Hl.
    + cbn [rbind]. intros [= <-]. now apply Hx.
  - intros e. destruct (has_own "toString" o); [| discriminate]. now intros [= <-].
Qed.

Lemma getProp_throws (s : JVal) (k : string) (e : exn) :
  getProp s k = Throw e -> e = TypeError.
Proof. destruct s; cbn; try discriminate; now intros [= <-]. Qed.

(** [renderSlides] throws a [TypeError] when [current] is a number and
    some slide cannot be shown. *)
Lemma renderFrom_fails (l : list JVal) :
  forall idx w n,
    ToNumber (current (state w)) = Val n ->
    forallb renderable l = false ->
    exists k, renderFrom l idx w = (Throw TypeError, with_dom k w).
Proof.
  induction l as [| s l IH]; intros idx w n Hn Hl; [discriminate |].
  cbn [forallb] in Hl.
  destruct (slide_place_val _ n idx Hn) as (p & Hp).
  rewrite renderFrom_cons, Hp.
  unfold renderable, stringable in Hl.
  destruct (getProp s "text") as [t | e] eqn:Et.
  2:{ rewrite (getProp_throws _ _ _ Et).
      exists (dom w). now rewrite with_dom_same. }
  destruct (ToString (js_or t (JStr ""))) as [str | e] eqn:Es.
  2:{ rewrite (ToString_throws _ _ Es).
      exists (dom w). now rewrite with_dom_same. }
  cbn [andb] in Hl.
  destruct (IH (S idx) (with_dom (S idx) w) n Hn Hl) as (k & ->).
  now exists k.
Qed.

Lemma renderSlides_fails (w : World) (n : num) :
  current (state w) = JNum n ->
  forallb renderable (slides (state w)) = false ->
  exists k, renderSlides w = (Throw TypeError, with_dom k w).
Proof.
  intros Hc Hl. rewrite renderSlides_unfold.
  destruct (renderFrom_fails (slides (state w)) 0 (with_dom 0 w) n)
    as (k & ->); auto.
  - cbn. now rewrite Hc.
  - now exists k.
Qed.

(** What [renderSlides ;; updateUI], the end of every operation that
    changes the slides, leaves of the world. *)
Lemma same_deck_with_dom (n : nat) (w : World) : same_deck w (with_dom n w).
Proof. repeat split. Qed.

Lemma finish_frame (w : World) :
  same_deck w (exec (renderSlides ;; updateUI) w).
Proof.
  rewrite exec_bind. destruct (renderSlides_frame w) as (r & n & ->).
  destruct r; [| apply same_deck_with_dom].
  unfold exec.
  destruct (updateUI_cases (with_dom n w)) as [-> | (e & ->)]; repeat split.
Qed.

Lemma finish_ok (w : World) (n : num) :
  current (state w) = JNum n ->
  forallb renderable (slides (state w)) = true ->
  (renderSlides ;; updateUI) w
  = (Val tt, saved (with_dom (length (slides (state w))) w)).
Proof.
  intros Hc Hl. unfold bind. rewrite (renderSlides_ok w n Hc Hl).
  now apply (updateUI_num _ n).
Qed.

Lemma finish_fails (w : World) (n : num) :
  current (state w) = JNum n ->
  forallb renderable (slides (state w)) = false ->
  exists k, (renderSlides ;; updateUI) w = (Throw TypeError, with_dom k w).
Proof.
  intros Hc Hl. unfold bind.
  destruct (renderSlides_fails w n Hc Hl) as (k & ->). now exists k.
Qed.

(* ================================================================== *)
(** ** Navigation *)
(* ================================================================== *)

Lemma goTo_run (w : World) (i : Z) :
  goTo (JNum (Int i)) w =
  let j := clamp i 0 (size (state w) - 1) in
  if strict_eq (JNum (Int j)) (current (state w)) then (Val tt, w)
  else (Val tt, exec save (with_state (set_current (JNum (Int j)) (state w)) w)).
Proof.
  unfold goTo, bind at 1, get_state. unfold bind at 1, eval.
  unfold js_lt. cbn [ToNumber ToPrimitive rbind num_ltb].
  unfold clamp, size.
  set (len := Z.of_nat (length (slides (state w)))).
  assert (Hgo : forall j,
             (if strict_eq (JNum (Int j)) (current (state w))
              then focusCurrentEditable
              else modify_state (set_current (JNum (Int j)));; updateUI) w
             = if strict_eq (JNum (Int j)) (current (state w)) then (Val tt, w)
               else (Val tt,
                     exec save (with_state (set_current (JNum (Int j)) (state w)) w))).
  { intros j. destruct (strict_eq _ _); [reflexivity |].
    unfold bind, modify_state. now rewrite (updateUI_num _ (Int j)). }
  cbv zeta.
  destruct (Z.ltb_spec i 0) as [Hi | Hi].
  - unfold bind at 1, eval, js_gt, zero. cbn [ToNumber ToPrimitive rbind num_ltb].
    destruct (Z.ltb_spec (len - 1) 0) as [Hl | Hl].
    + replace (Z.min (Z.max i 0) (len - 1)) with (len - 1) by lia. apply Hgo.
    + replace (Z.min (Z.max i 0) (len - 1)) with 0 by lia. apply Hgo.
  - unfold bind at 1, eval, js_gt. cbn [ToNumber ToPrimitive rbind num_ltb].
    destruct (Z.ltb_spec (len - 1) i) as [Hl | Hl].
    + replace (Z.min (Z.max i 0) (len - 1)) with (len - 1) by lia. apply Hgo.
    + replace (Z.min (Z.max i 0) (len - 1)) with i by lia. apply Hgo.
Qed.

Lemma strict_eq_int (j : Z) (v : JVal) :
  strict_eq (JNum (Int j)) v = true <-> v = JNum (Int j).
Proof.
  split.
  - destruct v as [| | b | [| z] | s | l | o]; cbn; try discriminate.
    intros H. apply Z.eqb_eq in H. now subst.
  - intros ->. cbn. apply Z.eqb_refl.
Qed.
(** C6.  For every integer [i] and every deck, [goTo(i)] completes
    without throwing and leaves [current] equal to
    [clamp(i, 0, slides.length - 1)]; the slides are untouched, and when
    the clamped value is already the current index nothing at all
    changes (no write either). *)
Theorem goTo_clamps (w : World) (i : Z) :
  let w' := exec (goTo (JNum (Int i))) w in
  let j := clamp i 0 (Z.of_nat (length (slides (state w))) - 1) in
  outcome (goTo (JNum (Int i))) w = Val tt
  /\ current (state w') = JNum (Int j)
  /\ slides (state w') = slides (state w)
  /\ (current (state w) = JNum (Int j) -> w' = w).
Proof.
  cbv zeta. unfold exec, outcome. rewrite goTo_run. cbv zeta. unfold size.
  set (j := clamp i 0 (Z.of_nat (length (slides (state w))) - 1)).
  destruct (strict_eq (JNum (Int j)) (current (state w))) eqn:E.
  - apply strict_eq_int in E. cbn. repeat split; auto.
  - cbn. repeat split.
    intros H. apply strict_eq_int in H. congruence.
Qed.

Lemma goTo_clamps_witness :
  current (state deck2) = JNum (Int (clamp (-7) 0 (Z.of_nat (length (slides (state deck2))) - 1)))
  /\ exec (goTo (JNum (Int (-7)))) deck2 = deck2.
Proof.
  split; [reflexivity |].
  apply (goTo_clamps deck2 (-7)). reflexivity.
Defined.

(* ================================================================== *)
(** ** Editing the text of a slide *)
(* ================================================================== *)

Lemma index_outside {A} (l : list A) (i : Z) :
  i < 0 \/ Z.of_nat (length l) <= i -> index l i = None.
Proof.
  intros H. unfold index.
  destruct (Z.ltb_spec i 0) as [Hi | Hi]; [reflexivity |].
  apply nth_error_None. lia.
Qed.

(** C5, as the program has it.  For every deck and every index out of
    range of [slides], the edit handler changes nothing (no slide, not
    [current], no write to the store), but it is not silent: reading
    [state.slides[index]] yields [undefined] and the assignment to its
    [text] throws a [TypeError]. *)
Theorem onTextInput_out_of_range (w : World) (idx : Z) (txt : string) :
  idx < 0 \/ Z.of_nat (length (slides (state w))) <= idx ->
  onTextInput idx txt w = (Throw TypeError, w).
Proof.
  intros H. unfold onTextInput, bind, get_state.
  rewrite (index_outside _ _ H). reflexivity.
Qed.

Lemma onTextInput_out_of_range_witness :
  onTextInput 5 "x" deck2 = (Throw TypeError, deck2).
Proof.
  apply (onTextInput_out_of_range deck2 5 "x").
  right. vm_compute. discriminate.
Defined.

(** C5, as stated, fails: [setSlideText(5, "x")] on a two-slide deck
    does throw. *)
Lemma onTextInput_throws_on_two_slide_deck :
  length (slides (state deck2)) = 2%nat
  /\ outcome (onTextInput 5 "x") deck2 = Throw TypeError
  /\ outcome (onTextInput 5 "x") deck2 <> Val tt.
Proof.
  split; [reflexivity |]. split; [reflexivity |]. discriminate.
Qed.

(* ================================================================== *)
(** ** Adding and deleting slides *)
(* ================================================================== *)

Lemma splice_start_int {A} (l : list A) (c : Z) :
  0 <= c <= Z.of_nat (length l) ->
  splice_start l c = Z.to_nat c.
Proof.
  intros H. unfold splice_start.
  destruct (Z.ltb_spec c 0); [lia |]. f_equal. lia.
Qed.

Lemma splice_start_le {A} (l : list A) (rs : Z) :
  (splice_start l rs <= length l)%nat.
Proof.
  unfold splice_start. cbv zeta.
  set (len := length l).
  destruct (Z.ltb_spec rs 0).
  - destruct (Z.max_spec (Z.of_nat len + rs) 0) as [[? ->] | [? ->]]; lia.
  - destruct (Z.min_spec rs (Z.of_nat len)) as [[? ->] | [? ->]]; lia.
Qed.

Lemma length_splice_insert {A} (l : list A) (rs : Z) (x : A) :
  length (splice_insert l rs x) = S (length l).
Proof.
  unfold splice_insert. rewrite length_app. cbn [length].
  rewrite Nat.add_succ_r, <- length_app, firstn_skipn. reflexivity.
Qed.

Lemma length_splice_delete {A} (l : list A) (rs : Z) :
  length (splice_delete l rs) =
  if (splice_start l rs <? length l)%nat then pred (length l) else length l.
Proof.
  unfold splice_delete. pose proof (splice_start_le l rs) as Hk.
  rewrite length_app, length_firstn, length_skipn.
  destruct (Nat.ltb_spec (splice_start l rs) (length l)); lia.
Qed.

(** [addSlide], when [current] is a number: the slide is inserted and
    [current] moved, then the page is rebuilt. *)
Lemma addSlide_num (w : World) (n : num) :
  current (state w) = JNum n ->
  addSlide w = (renderSlides ;; updateUI) (added n w).
Proof.
  destruct w as [[sl cur rs] ds sto wr al co idf nid dm].
  cbn [state current]. intros ->. reflexivity.
Qed.

(** A confirmed [deleteSlide] on a non-empty deck, when [current] is a
    number. *)
Lemma deleteSlide_num (w : World) (n : num) :
  current (state w) = JNum n ->
  slides (state w) <> [] ->
  deleteSlide true w = (renderSlides ;; updateUI) (deleted n w).
Proof.
  destruct w as [[sl cur rs] ds sto wr al co idf nid dm].
  cbn [state current slides]. intros -> Hne.
  destruct sl as [| s l]; [congruence |].
  unfold deleteSlide, bind at 1, get_state.
  cbn [state slides length Nat.eqb negb].
  unfold bind at 1, eval. cbn [ToInteger ToNumber ToPrimitive rbind current].
  unfold bind at 1, put_state. unfold bind at 1, get_state.
  unfold bind at 1, eval, js_ge.
  cbn [ToNumber ToPrimitive rbind current state with_state set_slides slides].
  unfold deleted. cbn [state slides current rest int_of]. cbv zeta.
  fold (int_of n).
  destruct (num_leb _ n); reflexivity.
Qed.

(** What [addSlide] does to the state when [current] is an integer. *)
Lemma addSlide_state (w : World) (c : Z) :
  current (state w) = JNum (Int c) ->
  state (exec addSlide w) =
  mkState (splice_insert (slides (state w)) (c + 1)
             (JObj [("id", JStr (ids w (nextId w))); ("text", JStr newSlideText)]))
          (JNum (Int (c + 1))) (rest (state w)).
Proof.
  intros Hc. unfold exec. rewrite (addSlide_num w (Int c) Hc).
  destruct (finish_frame (added (Int c) w)) as (Hs & _).
  unfold exec in Hs. now rewrite Hs.
Qed.

(** What a confirmed [deleteSlide] does to the state of a non-empty deck
    when [current] is an integer. *)
Lemma deleteSlide_state (w : World) (c : Z) :
  current (state w) = JNum (Int c) ->
  slides (state w) <> [] ->
  let l' := splice_delete (slides (state w)) c in
  state (exec (deleteSlide true) w) =
  mkState l'
    (if Z.of_nat (length l') <=? c
     then JNum (Int (Z.max 0 (Z.of_nat (length l') - 1)))
     else JNum (Int c))
    (rest (state w)).
Proof.
  intros Hc Hne. cbv zeta. unfold exec.
  rewrite (deleteSlide_num w (Int c) Hc Hne).
  destruct (finish_frame (deleted (Int c) w)) as (Hs & _).
  unfold exec in Hs. now rewrite Hs.
Qed.

Lemma deleteSlide_unconfirmed (w : World) :
  deleteSlide false w = (Val tt, w).
Proof.
  unfold deleteSlide, bind, get_state.
  destruct (length (slides (state w)) =? 0)%nat; reflexivity.
Qed.

Lemma deleteSlide_empty (w : World) (b : bool) :
  slides (state w) = [] -> deleteSlide b w = (Val tt, w).
Proof.
  intros H. unfold deleteSlide, bind, get_state. rewrite H. reflexivity.
Qed.


Lemma deleteSlide_keeps_index_bounded (w : World) (b : bool) :
  index_bounded (state w) = true ->
  index_bounded (state (exec (deleteSlide b) w)) = true.
Proof.
  intros H. destruct b; [| unfold exec; now rewrite (deleteSlide_unconfirmed w)].
  destruct (slides (state w)) as [| s l] eqn:Hs.
  { unfold exec. now rewrite (deleteSlide_empty w true Hs). }
  revert H. unfold index_bounded, size.
  destruct (current (state w)) as [| | | [| c] | | |] eqn:Hc; try discriminate.
  intros H.
  rewrite (deleteSlide_state w c Hc) by (rewrite Hs; discriminate).
  cbn [current slides].
  rewrite length_splice_delete, splice_start_int by lia.
  rewrite Hs in *. cbn [length] in *.
  destruct (Nat.ltb_spec (Z.to_nat c) (S (length l)));
    cbn [pred];
    match goal with |- context [?a <=? ?b] => destruct (Z.leb_spec a b) end;
    lia.
Qed.









(** Once the deck has been emptied, [addSlide] leaves [current] one past
    the only slide. *)
Example add_to_emptied_deck :
  let w := run [DeleteSlide true; AddSlide] deck1 in
  length (slides (state w)) = 1%nat /\ current (state w) = JNum (Int 1).
Proof. split; reflexivity. Qed.

(** C2, as the program has it.  A confirmed [deleteSlide] on a deck of
    size 1 that satisfies the invariants completes and yields the empty
    deck: [slides] has length 0 and [current] is 0.  No default slide is
    substituted and no id is generated; the empty deck is what is
    written to the store. *)
Theorem deleteSlide_only_slide (w : World) :
  deck_invariant (state w) = true ->
  length (slides (state w)) = 1%nat ->
  let w' := exec (deleteSlide true) w in
  outcome (deleteSlide true) w = Val tt
  /\ slides (state w') = []
  /\ current (state w') = JNum (Int 0)
  /\ nextId w' = nextId w
  /\ storage w' = Some (JSON_stringify (state_obj (state w'))).
Proof.
  destruct w as [[sl cur rs] ds sto wr al co idf nid dm].
  unfold deck_invariant, size. cbn [state current slides].
  destruct cur as [| | | [| c] | | |]; try discriminate.
  destruct sl as [| s [| s' l]]; try discriminate.
  cbn [length]. intros H _.
  assert (c = 0) as -> by lia.
  cbv zeta. repeat split.
Qed.

Lemma deleteSlide_only_slide_witness :
  slides (state (exec (deleteSlide true) deck1)) = []
  /\ current (state (exec (deleteSlide true) deck1)) = JNum (Int 0).
Proof.
  pose proof (deleteSlide_only_slide deck1 eq_refl eq_refl) as H.
  cbv zeta in H. split; [apply H | apply H].
Defined.

(** C2, as stated, fails: deleting the only slide of a deck leaves no
    slide at all, hence no fresh default slide either, and [genId] is
    not called. *)
Lemma delete_only_slide_leaves_none :
  length (slides (state deck1)) = 1%nat
  /\ length (slides (state (exec (deleteSlide true) deck1))) <> 1%nat
  /\ slides (state (exec (deleteSlide true) deck1)) = []
  /\ nextId (exec (deleteSlide true) deck1) = nextId deck1.
Proof.
  split; [reflexivity |]. split; [discriminate |]. split; reflexivity.
Qed.

(* ================================================================== *)
(** ** Import *)
(* ================================================================== *)

Lemma after_ids_0 (w : World) : after_ids 0 w = w.
Proof. destruct w. unfold after_ids. cbn. now rewrite Nat.add_0_r. Qed.

Lemma after_ids_after_ids (j k : nat) (w : World) :
  after_ids k (after_ids j w) = after_ids (j + k) w.
Proof. unfold after_ids. cbn. now rewrite Nat.add_assoc. Qed.

Lemma getProp_prop (s : JVal) (k : string) :
  nullish s = false -> getProp s k = Val (prop s k).
Proof. destruct s; try discriminate; reflexivity. Qed.

Lemma normalizeSlide_run (s : JVal) (w : World) :
  nullish s = false ->
  normalizeSlide s w =
  (Val (JObj [("id", if truthy (prop s "id") then prop s "id"
                     else JStr (ids w (nextId w)));
              ("text", js_or (prop s "text") (JStr ""))]),
   after_ids (if truthy (prop s "id") then 0 else 1) w).
Proof.
  intros Hs. unfold normalizeSlide, bind, eval.
  rewrite !(getProp_prop s _ Hs).
  destruct (truthy (prop s "id")).
  - unfold ret. now rewrite after_ids_0.
  - unfold genId, ret, after_ids. cbn. now rewrite Nat.add_1_r.
Qed.

Lemma normalizeSlide_nullish (s : JVal) (w : World) :
  nullish s = true -> normalizeSlide s w = (Throw TypeError, w).
Proof.
  intros Hs. destruct s; try discriminate; reflexivity.
Qed.

Lemma normalized_widen gen lo hi lo' hi' s s' :
  (lo' <= lo)%nat -> (hi <= hi')%nat ->
  normalized gen lo hi s s' -> normalized gen lo' hi' s s'.
Proof.
  intros Hlo Hhi (i & t & -> & Hi & Hg & Ht & He).
  exists i, t. repeat split; auto.
  intros Hf. destruct (Hg Hf) as (n & Hn & ->). exists n. split; [lia | reflexivity].
Qed.

Lemma mapM_normalize (l : list JVal) :
  forall w,
    Forall (fun s => nullish s = false) l ->
    exists l',
      mapM normalizeSlide l w = (Val l', after_ids (missing_ids l) w)
      /\ Forall2 (normalized (ids w) (nextId w) (nextId w + missing_ids l)) l l'.
Proof.
  induction l as [| s l IH]; intros w Hl.
  - exists []. split; [| constructor].
    cbn. unfold ret. now rewrite after_ids_0.
  - inversion Hl as [| ? ? Hs Hl']; subst.
    cbn [mapM]. unfold bind at 1. rewrite (normalizeSlide_run s w Hs).
    set (k := if truthy (prop s "id") then 0%nat else 1%nat).
    destruct (IH (after_ids k w) Hl') as (l' & Hrun & Hall).
    unfold bind at 1. rewrite Hrun. unfold ret.
    rewrite after_ids_after_ids.
    assert (Hk : missing_ids (s :: l) = (k + missing_ids l)%nat).
    { unfold missing_ids, k. cbn [filter].
      destruct (truthy (prop s "id")); reflexivity. }
    rewrite Hk. eexists. split; [reflexivity |].
    constructor.
    + exists (if truthy (prop s "id") then prop s "id" else JStr (ids w (nextId w))),
             (js_or (prop s "text") (JStr "")).
      unfold js_or.
      split; [reflexivity |]. subst k.
      destruct (truthy (prop s "id")), (truthy (prop s "text"));
        repeat split; try discriminate; auto;
        intros _; exists (nextId w); (split; [lia | reflexivity]).
    + cbn [after_ids ids nextId] in Hall.
      eapply Forall2_impl; [| exact Hall].
      intros a b. apply normalized_widen; lia.
Qed.



(** Normalizing a slide does not change whether it can be shown. *)
Lemma normalized_renderable gen lo hi (s s' : JVal) :
  nullish s = false ->
  normalized gen lo hi s s' -> renderable s' = renderable s.
Proof.
  intros Hs (i & t & -> & _ & _ & Ht & He).
  unfold renderable. rewrite (getProp_prop s _ Hs).
  cbn [getProp lookup String.eqb Ascii.eqb Bool.eqb].
  unfold js_or at 2.
  destruct (truthy (prop s "text")) eqn:E.
  - rewrite (Ht eq_refl). unfold js_or. now rewrite E.
  - rewrite (He eq_refl). reflexivity.
Qed.

Lemma normalized_all_renderable gen lo hi (l l' : list JVal) :
  Forall (fun s => nullish s = false) l ->
  Forall2 (normalized gen lo hi) l l' ->
  forallb renderable l' = forallb renderable l.
Proof.
  intros Hl H. induction H as [| s s' l l' Hs Hall IH]; [reflexivity |].
  inversion Hl; subst. cbn [forallb].
  rewrite (normalized_renderable gen lo hi s s') by assumption.
  now rewrite IH.
Qed.

(** An import that has got past the validation, up to the clamping of
    [current]: the slides are normalized, then either [current] is
    clamped and the page rebuilt, or the clamping throws. *)
Lemma onImportLoad_mapped (w : World) (o : list (string * JVal)) (l : list JVal) :
  lookup "slides" o = JArr l ->
  Forall (fun s => nullish s = false) l ->
  exists l',
    Forall2 (normalized (ids w) (nextId w) (nextId w + missing_ids l)) l l'
    /\ onImportLoad (TJson (JObj o)) w =
       match clampCurrent (lookup "current" o) (length l') with
       | Val c => importFinish (imported o l' (missing_ids l) c w)
       | Throw e =>
           try_catch (throw e) importCatch
                     (imported o l' (missing_ids l) (lookup "current" o) w)
       end.
Proof.
  intros Hsl Hl.
  destruct (mapM_normalize l (with_state (state_of_obj o l) w) Hl)
    as (l' & Hrun & Hall).
  exists l'. split; [exact Hall |].
  unfold onImportLoad, try_catch, bind at 1, eval. cbn [JSON_parse].
  unfold bind at 1. cbn [getProp]. rewrite Hsl.
  unfold bind at 1, put_state. unfold bind at 1, get_state.
  cbn [state with_state slides state_of_obj].
  unfold bind at 1. rewrite Hrun.
  unfold bind at 1, modify_state. unfold bind at 1, get_state.
  unfold bind at 1, eval.
  cbn [state with_state after_ids set_slides slides current state_of_obj].
  destruct (clampCurrent (lookup "current" o) (length l')) as [c | e];
    reflexivity.
Qed.

(** The end of an import whose slides can all be shown. *)
Lemma importFinish_ok (w : World) (n : num) :
  current (state w) = JNum n ->
  forallb renderable (slides (state w)) = true ->
  importFinish w = (Val tt, saved (with_dom (length (slides (state w))) w)).
Proof.
  intros Hc Hl. unfold importFinish, try_catch.
  now rewrite (finish_ok w n Hc Hl).
Qed.

(** The end of an import one of whose slides cannot be shown: the alert
    is raised and nothing is saved. *)
Lemma importFinish_fails (w : World) (n : num) :
  current (state w) = JNum n ->
  forallb renderable (slides (state w)) = false ->
  exists k,
    importFinish w =
    (Val tt,
     mkWorld (state w) (defaultSlides w) (storage w) (writes w)
             (importFailed :: alerts w) (TypeError :: console w)
             (ids w) (nextId w) k).
Proof.
  intros Hc Hl. unfold importFinish, try_catch.
  destruct (finish_fails w n Hc Hl) as (k & ->).
  now exists k.
Qed.

Lemma onImportLoad_rejects_early (w : World) (t : text) :
  rejected_early t = true ->
  exists e,
    onImportLoad t w =
    (Val tt,
     mkWorld (state w) (defaultSlides w) (storage w) (writes w)
             (importFailed :: alerts w) (e :: console w)
             (ids w) (nextId w) (dom w)).
Proof.
  intros H. unfold onImportLoad, try_catch, bind, eval, alert, console_error.
  destruct t as [| | v]; cbn [JSON_parse]; try (eexists; reflexivity).
  destruct v as [| | b | n | s | l | o]; cbn [getProp];
    try (eexists; reflexivity).
  cbn [rejected_early] in H.
  destruct (lookup "slides" o); try discriminate; eexists; reflexivity.
Qed.

Lemma plain_index_number (v : JVal) :
  plain_index v = true -> ToNumber (js_or v zero) = Val (Int (plain_value v)).
Proof.
  destruct v as [| | [|] | [| z] | | |]; try discriminate; intros _;
    try reflexivity.
  unfold js_or. cbn [truthy plain_value].
  destruct (Z.eqb_spec z 0) as [-> |]; reflexivity.
Qed.

Lemma clampCurrent_number (v : JVal) (len : nat) (z : Z) :
  ToNumber (js_or v zero) = Val (Int z) ->
  clampCurrent v len = Val (JNum (Int (clamp z 0 (Z.of_nat len - 1)))).
Proof.
  intros H. unfold clampCurrent, clamp. rewrite H. cbn.
  now rewrite Z.max_comm.
Qed.


Lemma clamp_in_range (z hi : Z) : 0 <= hi -> 0 <= clamp z 0 hi <= hi.
Proof. unfold clamp. lia. Qed.

(** C3, on the program: importing a file whose [slides] array holds
    [null] fails (the alert is raised and the [TypeError] is logged),
    yet by then [state = data] has been executed: the live deck is the
    raw imported object, not the deck before the call, while neither
    the page nor the store has been updated. *)
Theorem import_null_slide_changes_deck :
  let w' := exec (onImportLoad doc_null_slide) deck2 in
  alerts w' = [importFailed]
  /\ console w' = [TypeError]
  /\ state w' = mkState [JNull] JUndefined []
  /\ state w' <> state deck2
  /\ writes w' = writes deck2
  /\ dom w' = 2%nat.
Proof.
  cbv zeta. repeat split. discriminate.
Qed.

(** An import that has got past the validation, when [current] is
    absent, [null], a boolean or an integer: the slides are normalized
    and [current] clamped, then the page is rebuilt. *)
Lemma onImportLoad_plain (w : World) (o : list (string * JVal)) (l : list JVal) :
  lookup "slides" o = JArr l ->
  Forall (fun s => nullish s = false) l ->
  plain_index (lookup "current" o) = true ->
  exists l',
    Forall2 (normalized (ids w) (nextId w) (nextId w + missing_ids l)) l l'
    /\ onImportLoad (TJson (JObj o)) w =
       importFinish
         (imported o l' (missing_ids l)
            (JNum (Int (clamp (plain_value (lookup "current" o)) 0
                              (Z.of_nat (length l) - 1)))) w).
Proof.
  intros Hsl Hl Hp.
  destruct (onImportLoad_mapped w o l Hsl Hl) as (l' & Hall & Hrun).
  exists l'. split; [exact Hall |].
  rewrite Hrun.
  rewrite (clampCurrent_number _ _ _ (plain_index_number _ Hp)).
  now rewrite (Forall2_length Hall).
Qed.

(** C7, as the program has it.  For every imported object whose
    [slides] is an array without [null] elements and whose [current] is
    absent, [null], a boolean or an integer, every slide is normalized
    (a missing or falsy [id] is replaced by an id generated during the
    import, a missing or falsy [text] by the empty string) and [current]
    becomes [min(max(0, current||0), slides.length - 1)], which lies in
    [[0, slides.length - 1]] when the array is not empty and is [-1]
    when it is empty.  When every slide can be shown (its [text]
    converts to a string) the import succeeds: no alert, and the result
    is written to the store.  Otherwise rebuilding the page throws: the
    alert is raised and nothing is written, the deck having been
    replaced already. *)
Theorem import_normalizes (w : World) (o : list (string * JVal)) (l : list JVal) :
  lookup "slides" o = JArr l ->
  Forall (fun s => nullish s = false) l ->
  plain_index (lookup "current" o) = true ->
  let w' := exec (onImportLoad (TJson (JObj o))) w in
  let c := clamp (plain_value (lookup "current" o)) 0 (Z.of_nat (length l) - 1) in
  Forall2 (normalized (ids w) (nextId w) (nextId w')) l (slides (state w'))
  /\ nextId w' = (nextId w + missing_ids l)%nat
  /\ current (state w') = JNum (Int c)
  /\ (l <> [] -> 0 <= c <= Z.of_nat (length l) - 1)
  /\ (l = [] -> c = -1)
  /\ (forallb renderable l = true ->
      outcome (onImportLoad (TJson (JObj o))) w = Val tt
      /\ alerts w' = alerts w
      /\ console w' = console w
      /\ storage w' = Some (JSON_stringify (state_obj (state w'))))
  /\ (forallb renderable l = false ->
      outcome (onImportLoad (TJson (JObj o))) w = Val tt
      /\ alerts w' = importFailed :: alerts w
      /\ console w' = TypeError :: console w
      /\ writes w' = writes w
      /\ storage w' = storage w).
Proof.
  intros Hsl Hl Hp. cbv zeta.
  destruct (onImportLoad_plain w o l Hsl Hl Hp) as (l' & Hall & Hrun).
  set (c := clamp (plain_value (lookup "current" o)) 0 (Z.of_nat (length l) - 1))
    in *.
  set (w1 := imported o l' (missing_ids l) (JNum (Int c)) w) in *.
  assert (Hc1 : current (state w1) = JNum (Int c)) by reflexivity.
  assert (Hr : forallb renderable (slides (state w1)) = forallb renderable l)
    by exact (normalized_all_renderable _ _ _ l l' Hl Hall).
  assert (Hin : l <> [] -> 0 <= c <= Z.of_nat (length l) - 1).
  { intros Hne. apply clamp_in_range.
    destruct l; [congruence | cbn [length]; lia]. }
  assert (Hem : l = [] -> c = -1).
  { intros ->. unfold c, clamp. cbn [length Z.of_nat]. lia. }
  unfold exec, outcome. rewrite Hrun.
  destruct (forallb renderable l) eqn:Er.
  - rewrite (importFinish_ok w1 (Int c) Hc1 Hr).
    cbn [fst snd]. repeat split; try discriminate; auto; now apply Hin.
  - destruct (importFinish_fails w1 (Int c) Hc1 Hr) as (k & ->).
    cbn [fst snd]. repeat split; try discriminate; auto; now apply Hin.
Qed.

Lemma import_normalizes_witness :
  let w' := exec (onImportLoad (TJson (JObj doc_A_99))) deck2 in
  outcome (onImportLoad (TJson (JObj doc_A_99))) deck2 = Val tt
  /\ slides (state w') = [JObj [("id", JStr (sample_ids 1)); ("text", JStr "A")]]
  /\ current (state w') = JNum (Int 0).
Proof.
  cbv zeta.
  destruct (import_normalizes deck2 doc_A_99 [JObj [("text", JStr "A")]] eq_refl)
    as (_ & _ & Hcur & _ & _ & Hok & _).
  { repeat constructor. }
  { reflexivity. }
  split; [exact (proj1 (Hok eq_refl)) |]. split; [reflexivity |].
  exact Hcur.
Defined.

(** C7, as stated, fails, on three files whose [slides] field is an
    array.  With an empty array the import succeeds and [current] is
    [-1], below the lower bound [0].  With a [current] that converts to
    no number the import succeeds and [current] is [NaN].  With a [null]
    element the import does not succeed: the alert is raised and the
    slide that lacks an id is not given one. *)
Lemma import_array_not_always_normalized :
  let w1 := exec (onImportLoad (TJson (JObj doc_empty))) deck2 in
  let w2 := exec (onImportLoad (TJson (JObj doc_A_abc))) deck2 in
  let w3 := exec (onImportLoad (TJson (JObj doc_slide_then_null))) deck1 in
  (lookup "slides" doc_empty = JArr []
   /\ alerts w1 = []
   /\ current (state w1) = JNum (Int (-1)))
  /\ (lookup "slides" doc_A_abc = JArr [JObj [("text", JStr "A")]]
      /\ alerts w2 = []
      /\ current (state w2) = JNum NaN)
  /\ (lookup "slides" doc_slide_then_null = JArr [JObj [("text", JStr "A")]; JNull]
      /\ alerts w3 = [importFailed]
      /\ slides (state w3) = [JObj [("text", JStr "A")]; JNull]).
Proof. cbv zeta. repeat split. Qed.

(** A [current] whose conversion to a number throws makes the import
    fail at the clamping: the alert is raised and nothing is written,
    although the slides have been replaced and normalized. *)
Example import_own_toString_current :
  let w' := exec (onImportLoad (TJson (JObj doc_A_own_toString))) deck2 in
  alerts w' = [importFailed]
  /\ console w' = [TypeError]
  /\ slides (state w') = [JObj [("id", JStr (sample_ids 1)); ("text", JStr "A")]]
  /\ current (state w') = own_toString
  /\ writes w' = writes deck2.
Proof. cbv zeta. repeat split. Qed.

(** A slide whose [text] cannot be converted to a string makes the
    import fail when the page is rebuilt. *)
Example import_own_toString_text :
  let w' := exec (onImportLoad (TJson (JObj doc_text_own_toString))) deck2 in
  alerts w' = [importFailed]
  /\ console w' = [TypeError]
  /\ current (state w') = JNum (Int 0)
  /\ writes w' = writes deck2.
Proof. cbv zeta. repeat split. Qed.




(** With an empty [slides] array too, a [current] whose conversion
    throws makes the import fail with the alert. *)
Example import_empty_own_toString :
  let w' := exec (onImportLoad (TJson (JObj doc_empty_own_toString))) deck2 in
  alerts w' = [importFailed]
  /\ console w' = [TypeError]
  /\ slides (state w') = []
  /\ writes w' = writes deck2.
Proof. cbv zeta. repeat split. Qed.

(* ================================================================== *)
(** ** Start-up: [load] and [init] *)
(* ================================================================== *)

(** [load] either completes, leaving the world described by [loaded], or
    meets a [current] that the model does not follow. *)
Lemma load_cases (w : World) :
  (load_in_model (storage w) /\ load w = (Val tt, loaded w))
  \/ (~ load_in_model (storage w) /\ load w = (Throw OutOfModel, w)).
Proof.
  destruct w as [st ds sto wr al co idf nid dm].
  unfold load_in_model, loaded, load, loaded_state, try_catch, bind, getItem,
    eval, useDefault, console_error, put_state, with_state, defaultState.
  cbn [storage state defaultSlides writes alerts console ids nextId dom].
  destruct sto as [[| | v] |]; cbn [raw_truthy JSON_parse stored_deck load_log app];
    try (left; split; [exact I | reflexivity]).
  destruct v as [| | b | n | s | l | o]; cbn [getProp];
    try (left; split; [exact I | reflexivity]).
  destruct (lookup "slides" o) as [| | b | n | s | [| x l] | o'];
    try (left; split; [exact I | reflexivity]).
  cbn [state_of_obj current slides].
  destruct (clampCurrent (lookup "current" o) (length (x :: l))) as [c | e].
  - left. split; [discriminate | reflexivity].
  - destruct e; try (left; split; [discriminate | reflexivity]).
    right. split; [| reflexivity]. intros H. now apply H.
Qed.

Lemma load_run (w : World) :
  load_in_model (storage w) -> load w = (Val tt, loaded w).
Proof.
  intros H. destruct (load_cases w) as [[_ E] | [N _]]; [exact E | contradiction].
Qed.


(** After [load], [current] is a number. *)
Lemma loaded_state_numeric (w : World) :
  exists n, current (loaded_state w) = JNum n.
Proof.
  unfold loaded_state.
  destruct (stored_deck (storage w)) as [[o l] |]; [| now exists (Int 0)].
  unfold clampCurrent.
  destruct (ToNumber (js_or (lookup "current" o) zero)) as [n |];
    cbn [rbind]; [| now exists (Int 0)].
  now eexists.
Qed.

Lemma init_unfold (w : World) :
  init w =
  match load w with
  | (Val _, w') => (renderSlides ;; updateUI) w'
  | (Throw e, w') => (Throw e, w')
  end.
Proof.
  unfold init, bind at 1. destruct (load w) as [[[] | e] w']; [| reflexivity].
  unfold bind. destruct (renderSlides w') as [[[] | e] w'']; reflexivity.
Qed.

(** [init] when the deck that [load] leaves can be shown. *)
Lemma init_run (w : World) :
  load_in_model (storage w) ->
  forallb renderable (slides (loaded_state w)) = true ->
  init w =
  (Val tt,
   mkWorld (loaded_state w) (defaultSlides w)
           (Some (JSON_stringify (state_obj (loaded_state w))))
           (JSON_stringify (state_obj (loaded_state w)) :: writes w)
           (alerts w) (load_log (storage w) ++ console w)
           (ids w) (nextId w) (length (slides (loaded_state w)))).
Proof.
  intros Hm Hr. rewrite init_unfold, (load_run w Hm).
  destruct (loaded_state_numeric w) as (n & Hn).
  now rewrite (finish_ok (loaded w) n Hn Hr).
Qed.





Lemma boot_run (stored : option text) (gen : nat -> string) :
  boot stored gen = init (started stored gen).
Proof. reflexivity. Qed.

Lemma stored_deck_nonempty (raw : option text) o (l : list JVal) :
  stored_deck raw = Some (o, l) -> 0 <= Z.of_nat (length l) - 1.
Proof.
  unfold stored_deck. intros E.
  destruct raw as [[| | [| | | | | | o0]] |]; try discriminate.
  destruct (lookup "slides" o0) as [| | | | | [| x l0] |]; try discriminate.
  injection E as <- <-. cbn [length]. lia.
Qed.





(** Two more stored values that the script does not adopt as the claim
    has it: with a [null] slide the script throws while it builds the
    page and nothing is saved; with a [current] whose conversion throws,
    [load] logs the error and falls back to the default deck. *)
Example boot_stored_null_slide :
  let r := boot (Some stored_null_slide) sample_ids in
  fst r = Throw TypeError
  /\ slides (state (snd r)) = [JNull]
  /\ writes (snd r) = [].
Proof. cbv zeta. repeat split. Qed.

Example boot_stored_own_toString :
  let r := boot (Some stored_own_toString) sample_ids in
  fst r = Val tt
  /\ console (snd r) = [TypeError]
  /\ slides (state (snd r)) =
     [JObj [("id", JStr (sample_ids 0)); ("text", JStr defaultText)]]
  /\ current (state (snd r)) = JNum (Int 0).
Proof. cbv zeta. repeat split. Qed.

(* ================================================================== *)
(** ** Serialization round trip *)
(* ================================================================== *)

Lemma jsonify_slides (l : list Slide) :
  map jsonify (map slide_obj l) = map slide_obj l.
Proof.
  induction l as [| s l IH]; [reflexivity |].
  cbn [map]. rewrite IH. reflexivity.
Qed.

Lemma stringify_deck (d : Deck) :
  JSON_stringify (state_obj (deck_state d)) = TJson (state_obj (deck_state d)).
Proof.
  unfold JSON_stringify, state_obj, deck_state.
  cbn [slides current rest jsonify]. now rewrite jsonify_slides.
Qed.

Lemma clampCurrent_int (c : Z) (len : nat) :
  clampCurrent (JNum (Int c)) len = Val (JNum (Int (clamp c 0 (Z.of_nat len - 1)))).
Proof.
  apply clampCurrent_number. unfold js_or. cbn [truthy].
  destruct (Z.eqb_spec c 0) as [-> |]; reflexivity.
Qed.

(** C10.  For every deck of the data model, parsing the text that
    [save] writes gives back an object with the same slides (same
    order, ids and texts) and no other property than [current], and
    the clamping of [load] applied to its [current] yields
    [clamp(current, 0, slides.length - 1)].  For a deck with at least
    one slide this is what [load] makes of what [save] wrote: the same
    slides and the clamped [current]. *)
Theorem save_load_round_trip (d : Deck) :
  let n := length (deck_slides d) in
  let clamped := mkDeck (deck_slides d) (clamp (deck_current d) 0 (Z.of_nat n - 1)) in
  (exists o,
      JSON_parse (JSON_stringify (state_obj (deck_state d))) = Val (JObj o)
      /\ lookup "slides" o = JArr (map slide_obj (deck_slides d))
      /\ without ["slides"; "current"] o = []
      /\ clampCurrent (lookup "current" o) n = Val (current (deck_state clamped)))
  /\ (deck_slides d <> [] ->
      forall w, state w = deck_state d ->
                state (exec load (exec save w)) = deck_state clamped).
Proof.
  cbv zeta. split.
  - rewrite stringify_deck. eexists. split; [reflexivity |].
    cbn. split; [reflexivity |]. split; [reflexivity |].
    change (clampCurrent (JNum (Int (deck_current d))) (length (deck_slides d))
            = Val (JNum (Int (clamp (deck_current d) 0
                                (Z.of_nat (length (deck_slides d)) - 1))))).
    apply clampCurrent_int.
  - intros Hne w Hw. unfold exec at 2. rewrite save_run. cbn [snd].
    assert (Hst : stored_deck (storage (saved w)) =
                  Some ([("slides", JArr (map slide_obj (deck_slides d)));
                         ("current", JNum (Int (deck_current d)))],
                        map slide_obj (deck_slides d))).
    { cbn [storage saved]. rewrite Hw, stringify_deck.
      destruct d as [[| s l] c]; [exfalso; apply Hne; reflexivity |].
      reflexivity. }
    assert (Hc : clampCurrent (JNum (Int (deck_current d)))
                   (length (map slide_obj (deck_slides d)))
                 = Val (JNum (Int (clamp (deck_current d) 0
                                     (Z.of_nat (length (deck_slides d)) - 1))))).
    { rewrite length_map. apply clampCurrent_int. }
    unfold exec. rewrite load_run.
    + cbn [snd state loaded]. unfold loaded_state. rewrite Hst.
      cbn [lookup String.eqb Ascii.eqb Bool.eqb]. rewrite Hc. reflexivity.
    + unfold load_in_model. rewrite Hst.
      cbn [lookup String.eqb Ascii.eqb Bool.eqb]. rewrite Hc. discriminate.
Qed.

Lemma save_load_round_trip_witness :
  state (exec load (exec save (with_state (deck_state sample_deck) deck1))) =
  deck_state (mkDeck [mkSlide "a" "A"; mkSlide "b" "B"] 1).
Proof.
  apply (proj2 (save_load_round_trip sample_deck)).
  - discriminate.
  - reflexivity.
Defined.

(* ================================================================== *)
(** ** A run of the whole program *)
(* ================================================================== *)

(** Start on an empty store, add two slides, go back to the first one
    and delete it: the two added slides remain, in the order they have
    in the deck, and [current] is 0. *)
Example add_add_goTo_delete :
  let w0 := snd (boot None sample_ids) in
  let w1 := exec addSlide w0 in
  let w2 := exec addSlide w1 in
  let w3 := exec (goTo (JNum (Int 0))) w2 in
  let w4 := exec (deleteSlide true) w3 in
  (length (slides (state w0)), current (state w0)) = (1%nat, JNum (Int 0))
  /\ (length (slides (state w1)), current (state w1)) = (2%nat, JNum (Int 1))
  /\ (length (slides (state w2)), current (state w2)) = (3%nat, JNum (Int 2))
  /\ current (state w3) = JNum (Int 0)
  /\ slides (state w4) = skipn 1 (slides (state w2))
  /\ current (state w4) = JNum (Int 0).
Proof. vm_compute. repeat split. Qed.

(* ================================================================== *)
(** ** Reasoning on statements *)
(* ================================================================== *)

Lemma preserved_ret (P : World -> Prop) {A} (a : A) : preserved P (ret a).
Proof. intros w H. exact H. Qed.

Lemma preserved_bind (P : World -> Prop) {A B} (c : M A) (k : A -> M B) :
  preserved P c -> (forall a, preserved P (k a)) -> preserved P (bind c k).
Proof.
  intros Hc Hk w H. rewrite exec_bind.
  specialize (Hc w H). unfold exec in Hc.
  destruct (c w) as [[a | e] w']; cbn [snd] in Hc.
  - now apply Hk.
  - exact Hc.
Qed.

Lemma preserved_if (P : World -> Prop) {A} (b : bool) (c d : M A) :
  preserved P c -> preserved P d -> preserved P (if b then c else d).
Proof. destruct b; auto. Qed.

Lemma preserved_play (P : World -> Prop) (evs : list event) :
  (forall ev, In ev evs -> forall w, P w -> P (handle ev w)) ->
  forall w, P w -> P (play evs w).
Proof.
  induction evs as [| ev evs IH]; intros H w Hw; cbn [play]; [exact Hw |].
  apply IH.
  - intros ev' Hin. apply H. now right.
  - apply H; [now left | exact Hw].
Qed.

Lemma in_firstn {A} (x : A) (k : nat) (l : list A) :
  In x (firstn k l) -> In x l.
Proof.
  revert l. induction k as [| k IH]; intros [| y l] H; cbn in H;
    try contradiction.
  destruct H as [H | H]; [now left | right; now apply IH].
Qed.

(* ================================================================== *)
(** ** Adding and deleting, slide by slide *)
(* ================================================================== *)

Lemma invariant_inv (st : State) :
  deck_invariant st = true ->
  exists c, current st = JNum (Int c)
            /\ 0 <= c <= Z.of_nat (length (slides st)) - 1.
Proof.
  unfold deck_invariant, size.
  destruct (current st) as [| | | [| c] | | |]; try discriminate.
  intros H. exists c. split; [reflexivity | lia].
Qed.

Lemma index_insert {A} (l : list A) (k : nat) (x : A) :
  (k <= length l)%nat ->
  index (firstn k l ++ x :: skipn k l) (Z.of_nat k) = Some x.
Proof.
  intros Hk. unfold index.
  destruct (Z.ltb_spec (Z.of_nat k) 0); [lia |].
  rewrite Nat2Z.id, nth_error_app2; rewrite length_firstn, Nat.min_l by lia;
    [| lia].
  now rewrite Nat.sub_diag.
Qed.

Lemma forallb_inserted {A} (f : A -> bool) (k : nat) (l : list A) (x : A) :
  forallb f (firstn k l ++ x :: skipn k l) = f x && forallb f l.
Proof.
  rewrite <- (firstn_skipn k l) at 3. rewrite !forallb_app. cbn [forallb].
  destruct (forallb f (firstn k l)), (f x), (forallb f (skipn k l)); reflexivity.
Qed.


(** The slide that [addSlide] creates can be shown, so that the deck it
    hands to [renderSlides] can be shown when the deck before could. *)
Lemma added_renderable (n : num) (w : World) :
  forallb renderable (slides (state (added n w)))
  = forallb renderable (slides (state w)).
Proof.
  cbn [added state slides]. unfold splice_insert. now rewrite forallb_inserted.
Qed.


Lemma deleted_numeric (n : num) (w : World) :
  exists m, current (state (deleted n w)) = JNum m.
Proof.
  cbn [deleted state current with_state].
  destruct (num_leb _ n); now eexists.
Qed.

(** X1.  On a deck that satisfies the invariants, [addSlide] inserts one
    new slide just after the current one and makes it the current
    slide: the slides before and after the insertion point keep their
    order, and the new slide carries the id of this call of [genId] and
    the placeholder text.  When every slide of the deck can be shown,
    [addSlide] completes and the new deck is what the store holds; when
    one cannot (a [null] slide left by a failed import, say), it throws
    while the page is rebuilt and nothing is written. *)
Theorem addSlide_inserts_after_current (w : World) :
  deck_invariant (state w) = true ->
  exists c,
    current (state w) = JNum (Int c)
    /\ let k := Z.to_nat (c + 1) in
       let new := JObj [("id", JStr (ids w (nextId w)));
                        ("text", JStr newSlideText)] in
       let w' := exec addSlide w in
       slides (state w') =
         (firstn k (slides (state w)) ++ new :: skipn k (slides (state w)))%list
       /\ current (state w') = JNum (Int (c + 1))
       /\ index (slides (state w')) (c + 1) = Some new
       /\ nextId w' = S (nextId w)
       /\ (forallb renderable (slides (state w)) = true ->
           outcome addSlide w = Val tt /\ synced w')
       /\ (forallb renderable (slides (state w)) = false ->
           outcome addSlide w = Throw TypeError
           /\ writes w' = writes w
           /\ storage w' = storage w).
Proof.
  intros H. destruct (invariant_inv _ H) as (c & Hc & Hr).
  exists c. split; [exact Hc |]. cbv zeta.
  pose proof (addSlide_state w c Hc) as Hst.
  assert (Hk : splice_start (slides (state w)) (c + 1) = Z.to_nat (c + 1))
    by (apply splice_start_int; lia).
  unfold splice_insert in Hst. rewrite Hk in Hst.
  rewrite Hst. cbn [slides current].
  split; [reflexivity |]. split; [reflexivity |]. split.
  { replace (c + 1) with (Z.of_nat (Z.to_nat (c + 1))) at 3 by lia.
    apply index_insert. lia. }
  pose proof (added_renderable (Int c) w) as Hadd.
  assert (Hc1 : current (state (added (Int c) w)) = JNum (Int (c + 1)))
    by reflexivity.
  unfold exec, outcome. rewrite (addSlide_num w (Int c) Hc).
  split.
  { destruct (finish_frame (added (Int c) w)) as (_ & _ & _ & _ & _ & Hn).
    exact Hn. }
  split; intros Hall; rewrite Hall in Hadd.
  - rewrite (finish_ok _ _ Hc1 Hadd). split; reflexivity.
  - destruct (finish_fails _ _ Hc1 Hadd) as (k & ->). repeat split.
Qed.

Lemma addSlide_inserts_after_current_witness :
  slides (state (exec addSlide deck2)) =
  [slideA; JObj [("id", JStr (sample_ids 1)); ("text", JStr newSlideText)]; slideB]
  /\ current (state (exec addSlide deck2)) = JNum (Int 1)
  /\ outcome addSlide deck2 = Val tt.
Proof.
  destruct (addSlide_inserts_after_current deck2 eq_refl)
    as (c & Hc & Hs & Hcur & _ & _ & Hok & _).
  injection Hc as <-.
  split; [exact Hs |]. split; [exact Hcur | exact (proj1 (Hok eq_refl))].
Defined.

Lemma index_remove {A} (l : list A) (k : nat) :
  (S k < length l)%nat ->
  index (firstn k l ++ skipn (S k) l) (Z.of_nat k) = index l (Z.of_nat k + 1).
Proof.
  intros Hk. unfold index.
  destruct (Z.ltb_spec (Z.of_nat k) 0); [lia |].
  destruct (Z.ltb_spec (Z.of_nat k + 1) 0); [lia |].
  rewrite Nat2Z.id.
  replace (Z.to_nat (Z.of_nat k + 1)) with (S k) by lia.
  rewrite nth_error_app2; rewrite length_firstn, Nat.min_l by lia; [| lia].
  rewrite Nat.sub_diag, nth_error_skipn. f_equal. lia.
Qed.

(** A confirmed [deleteSlide] on a non-empty deck whose [current] is a
    number: the state it leaves, and whether it completes. *)
Lemma deleteSlide_outcome (w : World) (n : num) :
  current (state w) = JNum n ->
  slides (state w) <> [] ->
  let w' := exec (deleteSlide true) w in
  state w' = state (deleted n w)
  /\ nextId w' = nextId w
  /\ alerts w' = alerts w
  /\ (forallb renderable (slides (state w')) = true ->
      outcome (deleteSlide true) w = Val tt
      /\ synced w'
      /\ writes w' = JSON_stringify (state_obj (state w')) :: writes w)
  /\ (forallb renderable (slides (state w')) = false ->
      outcome (deleteSlide true) w = Throw TypeError
      /\ writes w' = writes w
      /\ storage w' = storage w).
Proof.
  intros Hc Hne. cbv zeta.
  destruct (deleted_numeric n w) as (m & Hm).
  unfold exec, outcome. rewrite (deleteSlide_num w n Hc Hne).
  destruct (finish_frame (deleted n w)) as (Hs & _ & Ha & _ & _ & Hn).
  unfold exec in Hs, Ha, Hn. rewrite Hs.
  split; [reflexivity |]. split; [exact Hn |]. split; [exact Ha |].
  split; intros Hall.
  - rewrite (finish_ok _ _ Hm Hall). repeat split.
  - destruct (finish_fails _ _ Hm Hall) as (k & ->). repeat split.
Qed.

(** X2.  On a deck that satisfies the invariants, a confirmed
    [deleteSlide] removes exactly the current slide, the others keeping
    their order.  [current] stays where it is, so that it now
    designates the slide that followed the deleted one; when the
    deleted slide was the last one, [current] moves back to the new last
    slide (and stays 0 when the deck becomes empty).  When every
    remaining slide can be shown, [deleteSlide] completes and the new
    deck is what the store holds; when one cannot, it throws while the
    page is rebuilt and nothing is written. *)
Theorem deleteSlide_removes_current (w : World) :
  deck_invariant (state w) = true ->
  exists c,
    current (state w) = JNum (Int c)
    /\ let l := slides (state w) in
       let len := Z.of_nat (length l) in
       let w' := exec (deleteSlide true) w in
       slides (state w') = (firstn (Z.to_nat c) l ++ skipn (S (Z.to_nat c)) l)%list
       /\ length (slides (state w')) = pred (length l)
       /\ current (state w') = JNum (Int (Z.max 0 (Z.min c (len - 2))))
       /\ (c < len - 1 -> index (slides (state w')) c = index l (c + 1))
       /\ (forallb renderable (slides (state w')) = true ->
           outcome (deleteSlide true) w = Val tt /\ synced w')
       /\ (forallb renderable (slides (state w')) = false ->
           outcome (deleteSlide true) w = Throw TypeError
           /\ writes w' = writes w
           /\ storage w' = storage w).
Proof.
  intros H. destruct (invariant_inv _ H) as (c & Hc & Hr).
  exists c. split; [exact Hc |]. cbv zeta.
  assert (Hne : slides (state w) <> []).
  { destruct (slides (state w)); [cbn in Hr; lia | discriminate]. }
  destruct (deleteSlide_outcome w (Int c) Hc Hne) as (Hs & _ & _ & Hok & Hko).
  cbv zeta in Hs, Hok, Hko.
  assert (Hk : splice_start (slides (state w)) c = Z.to_nat c)
    by (apply splice_start_int; lia).
  assert (Hlen : length (splice_delete (slides (state w)) c)
                 = pred (length (slides (state w)))).
  { rewrite length_splice_delete, Hk.
    destruct (Nat.ltb_spec (Z.to_nat c) (length (slides (state w)))); [reflexivity | lia]. }
  assert (Hsl : slides (state (exec (deleteSlide true) w)) =
                (firstn (Z.to_nat c) (slides (state w))
                 ++ skipn (S (Z.to_nat c)) (slides (state w)))%list).
  { rewrite Hs. cbn [deleted state slides with_state int_of].
    unfold splice_delete. now rewrite Hk. }
  split; [exact Hsl |].
  split; [rewrite Hs; cbn [deleted state slides with_state int_of]; exact Hlen |].
  split.
  { rewrite Hs. cbn [deleted state current with_state int_of num_leb].
    rewrite Hlen.
    destruct (Z.leb_spec (Z.of_nat (pred (length (slides (state w))))) c);
      do 2 f_equal; lia. }
  split.
  { intros Hlt. rewrite Hsl.
    pose proof (index_remove (slides (state w)) (Z.to_nat c)) as Hi.
    rewrite Z2Nat.id in Hi by lia. apply Hi. lia. }
  split; intros Hall.
  - destruct (Hok Hall) as (Ho & Hy & _). now split.
  - exact (Hko Hall).
Qed.

Lemma deleteSlide_removes_current_witness :
  slides (state (exec (deleteSlide true) deck2)) = [slideB]
  /\ current (state (exec (deleteSlide true) deck2)) = JNum (Int 0)
  /\ outcome (deleteSlide true) deck2 = Val tt.
Proof.
  destruct (deleteSlide_removes_current deck2 eq_refl)
    as (c & Hc & Hs & _ & Hcur & _ & Hok & _).
  injection Hc as <-.
  split; [exact Hs |]. split; [exact Hcur | exact (proj1 (Hok eq_refl))].
Defined.

(** A confirmed [deleteSlide] on a non-empty deck whose [current] is a
    number changes the deck: a slide goes, or [current] is brought back
    into the deck. *)
Lemma deleted_changes (w : World) (n : num) :
  slides (state w) <> [] ->
  current (state w) = JNum n ->
  state (deleted n w) <> state w.
Proof.
  intros Hne Hc E.
  assert (Hlen : (1 <= length (slides (state w)))%nat)
    by (destruct (slides (state w)); [congruence | cbn [length]; lia]).
  pose proof (f_equal slides E) as Es.
  pose proof (f_equal current E) as Ec.
  cbn [deleted state slides current with_state] in Es, Ec.
  pose proof (f_equal (@length JVal) Es) as El.
  rewrite length_splice_delete in El.
  rewrite Es, Hc in Ec.
  pose proof (splice_start_le (slides (state w)) (int_of n)) as Hle.
  destruct (Nat.ltb_spec (splice_start (slides (state w)) (int_of n))
                         (length (slides (state w)))) as [Hlt | Hge]; [lia |].
  assert (Hk : splice_start (slides (state w)) (int_of n)
               = length (slides (state w))) by lia.
  unfold splice_start in Hk.
  destruct n as [| z]; cbn [int_of num_leb] in *.
  - cbn in Hk. lia.
  - destruct (Z.ltb_spec z 0); [lia |].
    destruct (Z.leb_spec (Z.of_nat (length (slides (state w)))) z).
    + injection Ec as Ec. lia.
    + lia.
Qed.

(** X3.  When [current] is a number, [deleteSlide] leaves the whole
    world as it is (deck, store, page) exactly when the dialog is
    declined or the deck has no slide.  In every other case it changes
    the deck, and it writes the new deck to the store unless one of the
    remaining slides cannot be shown, in which case nothing is
    written. *)
Theorem deleteSlide_does_nothing_iff (w : World) (confirmed : bool) :
  numeric (current (state w)) = true ->
  let w' := exec (deleteSlide confirmed) w in
  (w' = w <-> confirmed = false \/ slides (state w) = [])
  /\ (confirmed = true -> slides (state w) <> [] ->
      state w' <> state w
      /\ (forallb renderable (slides (state w')) = true ->
          writes w' = JSON_stringify (state_obj (state w')) :: writes w)
      /\ (forallb renderable (slides (state w')) = false ->
          writes w' = writes w)).
Proof.
  intros Hnum. destruct (ToNumber_numeric _ Hnum) as (n & Hc). cbv zeta.
  split; [split |].
  - intros H. destruct confirmed; [| now left]. right.
    destruct (slides (state w)) as [| s l] eqn:Hs; [reflexivity | exfalso].
    assert (Hne : slides (state w) <> []) by (rewrite Hs; discriminate).
    destruct (deleteSlide_outcome w n Hc Hne) as (Hst & _).
    cbv zeta in Hst. rewrite H in Hst.
    exact (deleted_changes w n Hne Hc (eq_sym Hst)).
  - intros [-> | H]; unfold exec.
    + now rewrite deleteSlide_unconfirmed.
    + now rewrite (deleteSlide_empty w confirmed H).
  - intros -> Hne.
    destruct (deleteSlide_outcome w n Hc Hne) as (Hst & _ & _ & Hok & Hko).
    cbv zeta in Hst, Hok, Hko. split; [| split].
    + rewrite Hst. now apply deleted_changes.
    + intros Hall. now destruct (Hok Hall) as (_ & _ & Hw).
    + intros Hall. now destruct (Hko Hall) as (_ & Hw & _).
Qed.

Lemma deleteSlide_does_nothing_iff_witness :
  exec (deleteSlide false) deck2 = deck2
  /\ state (exec (deleteSlide true) deck2) <> state deck2.
Proof.
  destruct (deleteSlide_does_nothing_iff deck2 false eq_refl) as (Hiff & _).
  destruct (deleteSlide_does_nothing_iff deck2 true eq_refl) as (_ & Hch).
  split.
  - apply (proj2 Hiff). left. reflexivity.
  - apply (Hch eq_refl). discriminate.
Defined.

Lemma remove_inserted {A} (l : list A) (k : nat) (x : A) :
  (k <= length l)%nat ->
  (firstn k (firstn k l ++ x :: skipn k l)
   ++ skipn (S k) (firstn k l ++ x :: skipn k l))%list = l.
Proof.
  intros Hk.
  assert (Hf : length (firstn k l) = k) by (rewrite length_firstn; lia).
  rewrite firstn_app, skipn_app, Hf, Nat.sub_diag.
  rewrite (skipn_all2 (n := S k) (firstn k l)) by lia.
  rewrite firstn_firstn, Nat.min_id. cbn [firstn].
  rewrite app_nil_r.
  replace (S k - k)%nat with 1%nat by lia. cbn [skipn app].
  apply firstn_skipn.
Qed.

(** X4.  On a deck that satisfies the invariants, [addSlide] followed
    by a confirmed [deleteSlide] gives back the slides there were, in
    the same order; [current] does not come back: it has moved to the
    slide that followed the former current one, and is unchanged only
    when that one was the last slide. *)
Theorem add_then_delete (w : World) :
  deck_invariant (state w) = true ->
  exists c,
    current (state w) = JNum (Int c)
    /\ let w' := exec (deleteSlide true) (exec addSlide w) in
       slides (state w') = slides (state w)
       /\ current (state w') =
          JNum (Int (Z.min (c + 1) (Z.of_nat (length (slides (state w))) - 1)))
       /\ rest (state w') = rest (state w).
Proof.
  intros H. destruct (invariant_inv _ H) as (c & Hc & Hr).
  exists c. split; [exact Hc |]. cbv zeta.
  pose proof (addSlide_state w c Hc) as Hadd.
  set (w1 := exec addSlide w) in *.
  assert (Hk : splice_start (slides (state w)) (c + 1) = Z.to_nat (c + 1))
    by (apply splice_start_int; lia).
  unfold splice_insert in Hadd. rewrite Hk in Hadd.
  set (k := Z.to_nat (c + 1)) in *.
  set (new := JObj [("id", JStr (ids w (nextId w))); ("text", JStr newSlideText)]) in *.
  assert (Hlen1 : length (slides (state w1)) = S (length (slides (state w)))).
  { rewrite Hadd. cbn [slides]. rewrite length_app. cbn [length].
    rewrite Nat.add_succ_r, <- length_app, firstn_skipn. reflexivity. }
  assert (Hc1 : current (state w1) = JNum (Int (c + 1))) by now rewrite Hadd.
  rewrite (deleteSlide_state w1 (c + 1) Hc1)
    by (destruct (slides (state w1)); [discriminate | discriminate]).
  assert (Hk1 : splice_start (slides (state w1)) (c + 1) = k)
    by (apply splice_start_int; lia).
  assert (Hdel : splice_delete (slides (state w1)) (c + 1) = slides (state w)).
  { unfold splice_delete. rewrite Hk1, Hadd. cbn [slides].
    apply remove_inserted. lia. }
  rewrite Hdel. cbn [slides current rest].
  split; [reflexivity |]. split; [| now rewrite Hadd].
  destruct (Z.leb_spec (Z.of_nat (length (slides (state w)))) (c + 1));
    do 2 f_equal; lia.
Qed.

Lemma add_then_delete_witness :
  slides (state (exec (deleteSlide true) (exec addSlide deck2))) = [slideA; slideB]
  /\ current (state (exec (deleteSlide true) (exec addSlide deck2))) = JNum (Int 1).
Proof.
  destruct (add_then_delete deck2 eq_refl) as (c & Hc & Hs & Hcur & _).
  injection Hc as <-. split; [exact Hs | exact Hcur].
Defined.

(* ================================================================== *)
(** ** Navigating with the arrows *)
(* ================================================================== *)

Lemma goTo_state (w : World) (i : Z) :
  state (exec (goTo (JNum (Int i))) w) =
  set_current (JNum (Int (clamp i 0 (size (state w) - 1)))) (state w).
Proof.
  unfold exec. rewrite goTo_run. cbv zeta.
  destruct (strict_eq _ _) eqn:E; cbn [snd]; [| reflexivity].
  apply strict_eq_int in E. rewrite <- E. now destruct (state w).
Qed.

(** X5.  [goTo] is idempotent, store included: for every integer [i],
    a second [goTo(i)] in a row changes nothing and writes nothing. *)
Theorem goTo_twice (w : World) (i : Z) :
  exec (goTo (JNum (Int i))) (exec (goTo (JNum (Int i))) w)
  = exec (goTo (JNum (Int i))) w.
Proof.
  set (w1 := exec (goTo (JNum (Int i))) w).
  pose proof (goTo_state w i) as Hst. fold w1 in Hst.
  unfold exec at 1. rewrite goTo_run. cbv zeta. rewrite Hst.
  unfold size, set_current. cbn [slides current].
  rewrite (proj2 (strict_eq_int _ _) eq_refl). reflexivity.
Qed.

Lemma prevClick_int (w : World) (c : Z) :
  current (state w) = JNum (Int c) ->
  prevClick w = goTo (JNum (Int (c - 1))) w.
Proof.
  intros Hc. unfold prevClick, bind, get_state. now rewrite Hc.
Qed.

Lemma nextClick_int (w : World) (c : Z) :
  current (state w) = JNum (Int c) ->
  nextClick w = goTo (JNum (Int (c + 1))) w.
Proof.
  intros Hc. unfold nextClick, bind, get_state. now rewrite Hc.
Qed.

Lemma state_set_current_same (st : State) :
  set_current (current st) st = st.
Proof. now destruct st. Qed.

(** X6.  On a deck that satisfies the invariants, the two arrows undo
    each other away from the ends: next then previous brings the deck
    back when the current slide is not the last one, previous then next
    when it is not the first one. *)
Theorem arrows_undo_each_other (w : World) :
  deck_invariant (state w) = true ->
  exists c,
    current (state w) = JNum (Int c)
    /\ (c < Z.of_nat (length (slides (state w))) - 1 ->
        state (exec prevClick (exec nextClick w)) = state w)
    /\ (0 < c -> state (exec nextClick (exec prevClick w)) = state w).
Proof.
  intros H. destruct (invariant_inv _ H) as (c & Hc & Hr).
  exists c. split; [exact Hc |].
  split; intros Hlt.
  - assert (H1 : state (exec nextClick w) = set_current (JNum (Int (c + 1))) (state w)).
    { unfold exec. rewrite (nextClick_int w c Hc). fold (exec (goTo (JNum (Int (c + 1)))) w).
      rewrite goTo_state. unfold clamp, size. do 3 f_equal. lia. }
    unfold exec at 1. rewrite (prevClick_int _ (c + 1)) by now rewrite H1.
    fold (exec (goTo (JNum (Int (c + 1 - 1)))) (exec nextClick w)).
    rewrite goTo_state, H1. unfold clamp, size, set_current. cbn [slides current rest].
    replace (Z.min (Z.max (c + 1 - 1) 0) (Z.of_nat (length (slides (state w))) - 1))
      with c by lia.
    rewrite <- Hc. now destruct (state w).
  - assert (H1 : state (exec prevClick w) = set_current (JNum (Int (c - 1))) (state w)).
    { unfold exec. rewrite (prevClick_int w c Hc). fold (exec (goTo (JNum (Int (c - 1)))) w).
      rewrite goTo_state. unfold clamp, size. do 3 f_equal. lia. }
    unfold exec at 1. rewrite (nextClick_int _ (c - 1)) by now rewrite H1.
    fold (exec (goTo (JNum (Int (c - 1 + 1)))) (exec prevClick w)).
    rewrite goTo_state, H1. unfold clamp, size, set_current. cbn [slides current rest].
    replace (Z.min (Z.max (c - 1 + 1) 0) (Z.of_nat (length (slides (state w))) - 1))
      with c by lia.
    rewrite <- Hc. now destruct (state w).
Qed.

Lemma arrows_undo_each_other_witness :
  state (exec prevClick (exec nextClick deck2)) = state deck2.
Proof.
  destruct (arrows_undo_each_other deck2 eq_refl) as (c & Hc & H1 & _).
  injection Hc as <-. apply H1. vm_compute. reflexivity.
Defined.

Lemma goTo_moves (w : World) (i c : Z) :
  current (state w) = JNum (Int c) ->
  clamp i 0 (size (state w) - 1) <> c ->
  exec (goTo (JNum (Int i))) w <> w.
Proof.
  intros Hc Hne Heq. apply (f_equal (fun w => current (state w))) in Heq.
  rewrite goTo_state, Hc in Heq. cbn in Heq. congruence.
Qed.

Lemma goTo_stays (w : World) (i : Z) :
  current (state w) = JNum (Int (clamp i 0 (size (state w) - 1))) ->
  exec (goTo (JNum (Int i))) w = w.
Proof.
  intros Hc. unfold exec. rewrite goTo_run. cbv zeta.
  now rewrite (proj2 (strict_eq_int _ _) Hc).
Qed.

(** X7.  When [current] is a number, the buttons that [updateUI]
    disables are exactly those whose click would do nothing.  The delete
    button is disabled if and only if a confirmed [deleteSlide] leaves
    the world as it is; and on a deck that satisfies the invariants the
    previous (next) button is disabled if and only if its click leaves
    the world as it is, which is the case on the first (last) slide
    only. *)
Theorem disabled_buttons_do_nothing (w : World) :
  numeric (current (state w)) = true ->
  exists ui,
    controls (state w) = Val ui
    /\ (delDisabled ui = true <-> exec (deleteSlide true) w = w)
    /\ (deck_invariant (state w) = true ->
        (prevDisabled ui = true <-> exec prevClick w = w)
        /\ (prevDisabled ui = true <-> current (state w) = JNum (Int 0))
        /\ (nextDisabled ui = true <-> exec nextClick w = w)
        /\ (nextDisabled ui = true
            <-> current (state w)
                = JNum (Int (Z.of_nat (length (slides (state w))) - 1)))).
Proof.
  intros Hnum. destruct (ToNumber_numeric _ Hnum) as (n & Hn).
  eexists. split; [| split].
  - unfold controls, js_le, js_ge. rewrite Hn.
    cbn [js_add ToPrimitive ToNumber ToString rbind one]. reflexivity.
  - cbn [delDisabled]. split.
    + intros H. apply Z.eqb_eq in H. unfold exec.
      rewrite (deleteSlide_empty w true); [reflexivity |].
      destruct (slides (state w)); [reflexivity | cbn in H; lia].
    + intros H.
      destruct (slides (state w)) as [| s l] eqn:Hs; [reflexivity | exfalso].
      assert (Hne : slides (state w) <> []) by (rewrite Hs; discriminate).
      destruct (deleteSlide_outcome w n Hn Hne) as (Hst & _).
      cbv zeta in Hst. rewrite H in Hst.
      exact (deleted_changes w n Hne Hn (eq_sym Hst)).
  - intros H. destruct (invariant_inv _ H) as (c & Hc & Hr).
    rewrite Hc in Hn. injection Hn as <-. rewrite Hc.
    cbn [prevDisabled nextDisabled num_leb].
    unfold exec. rewrite (prevClick_int w c Hc), (nextClick_int w c Hc).
    fold (exec (goTo (JNum (Int (c - 1)))) w).
    fold (exec (goTo (JNum (Int (c + 1)))) w).
    repeat split.
    + intros Hle. apply Z.leb_le in Hle. apply goTo_stays.
      rewrite Hc. unfold clamp, size. do 2 f_equal. lia.
    + intros Heq. apply Z.leb_le.
      destruct (Z.le_gt_cases c 0) as [Hle | Hgt]; [exact Hle | exfalso].
      apply (goTo_moves w (c - 1) c Hc); [unfold clamp, size; lia | exact Heq].
    + intros Hle. apply Z.leb_le in Hle. do 2 f_equal. lia.
    + intros Heq. injection Heq as ->. reflexivity.
    + intros Hle. apply Z.leb_le in Hle. apply goTo_stays.
      rewrite Hc. unfold clamp, size. do 2 f_equal. lia.
    + intros Heq. apply Z.leb_le.
      destruct (Z.le_gt_cases (Z.of_nat (length (slides (state w))) - 1) c)
        as [Hle | Hgt]; [exact Hle | exfalso].
      apply (goTo_moves w (c + 1) c Hc); [unfold clamp, size; lia | exact Heq].
    + intros Hle. apply Z.leb_le in Hle. do 2 f_equal. lia.
    + intros Heq. injection Heq as ->. apply Z.leb_le. lia.
Qed.

Lemma disabled_buttons_do_nothing_witness :
  exists ui,
    controls (state deck2) = Val ui
    /\ prevDisabled ui = true
    /\ exec prevClick deck2 = deck2
    /\ (delDisabled ui = true <-> exec (deleteSlide true) deck2 = deck2).
Proof.
  destruct (disabled_buttons_do_nothing deck2 eq_refl) as (ui & Hui & Hd & H).
  destruct (H eq_refl) as (Hp & Hp0 & _ & _).
  exists ui. split; [exact Hui |].
  assert (Hpd : prevDisabled ui = true) by (apply Hp0; reflexivity).
  split; [exact Hpd |]. split; [now apply Hp | exact Hd].
Defined.

(* ================================================================== *)
(** ** The page *)
(* ================================================================== *)

(** X8.  When the only slide of a deck that satisfies the invariants is
    deleted, the page shows an empty deck as slide 1 of 0: the counter
    reads [Diapositiva 1 / 0] and the three buttons are disabled. *)
Theorem emptied_deck_controls (w : World) :
  deck_invariant (state w) = true ->
  length (slides (state w)) = 1%nat ->
  controls (state (exec (deleteSlide true) w))
  = Val (mkControls "Diapositiva 1 / 0" true true true).
Proof.
  destruct w as [[sl cur rs] ds sto wr al co idf nid dm].
  unfold deck_invariant, size. cbn [state current slides].
  destruct cur as [| | | [| c] | | |]; try discriminate.
  destruct sl as [| s [| s' l]]; try discriminate.
  cbn [length]. intros H _.
  assert (c = 0) as -> by lia. reflexivity.
Qed.

Lemma emptied_deck_controls_witness :
  controls (state (exec (deleteSlide true) deck1))
  = Val (mkControls "Diapositiva 1 / 0" true true true).
Proof.
  apply (emptied_deck_controls deck1); reflexivity.
Defined.

Lemma map_constant {A B} (f : A -> B) (v : B) (l : list A) :
  (forall x, In x l -> f x = v) -> map f l = repeat v (length l).
Proof.
  induction l as [| x l IH]; intros H; [reflexivity |].
  cbn [map length repeat]. rewrite (H x) by now left.
  f_equal. apply IH. intros y Hy. apply H. now right.
Qed.

(** X9.  On a deck that satisfies the invariants exactly one slide is
    on stage, the current one: the slides before it are off to the
    left, the slides after it off to the right. *)
Theorem one_slide_on_stage (st : State) :
  deck_invariant st = true ->
  exists c : nat,
    current st = JNum (Int (Z.of_nat c))
    /\ (c < length (slides st))%nat
    /\ map (slide_place (current st)) (seq 0 (length (slides st)))
       = map Val (repeat OffLeft c
                  ++ OnStage :: repeat OffRight (length (slides st) - S c))%list.
Proof.
  intros H. destruct (invariant_inv _ H) as (c & Hc & Hr).
  exists (Z.to_nat c). rewrite Z2Nat.id by lia.
  split; [exact Hc |]. split; [lia |].
  rewrite Hc. set (n := length (slides st)) in *.
  replace n with (Z.to_nat c + S (n - S (Z.to_nat c)))%nat at 1 by lia.
  rewrite seq_app, !map_app. cbn [seq map Nat.add].
  f_equal; [| f_equal].
  - rewrite (map_constant _ (Val OffLeft)), length_seq, map_repeat;
      [reflexivity |].
    intros x Hx. apply in_seq in Hx. unfold slide_place, lt_js, gt_js.
    cbn [ToNumber ToPrimitive rbind num_ltb].
    destruct (Z.ltb_spec (Z.of_nat x) c); [reflexivity | lia].
  - unfold slide_place, lt_js, gt_js. cbn [ToNumber ToPrimitive rbind num_ltb].
    rewrite Z2Nat.id by lia. now rewrite Z.ltb_irrefl.
  - rewrite (map_constant _ (Val OffRight)), length_seq, map_repeat;
      [reflexivity |].
    intros x Hx. apply in_seq in Hx. unfold slide_place, lt_js, gt_js.
    cbn [ToNumber ToPrimitive rbind num_ltb].
    destruct (Z.ltb_spec (Z.of_nat x) c); [lia |].
    destruct (Z.ltb_spec c (Z.of_nat x)); [reflexivity | lia].
Qed.

Lemma one_slide_on_stage_witness :
  map (slide_place (current (state deck2))) (seq 0 2)
  = [Val OnStage; Val OffRight].
Proof.
  destruct (one_slide_on_stage (state deck2) eq_refl) as (c & Hc & _ & Hm).
  injection Hc as Hc. destruct c; [exact Hm | discriminate].
Defined.

(* ================================================================== *)
(** ** Keys *)
(* ================================================================== *)

(** X10.  [onKey] reacts to four keys only.  Any event whose key is
    neither of the two arrows and which is not an N or a D typed with
    Ctrl or Meta leaves the world untouched, and the default action of
    the key is not prevented; in particular typing text never adds,
    deletes or moves a slide through this handler. *)
Theorem onKey_ignores_other_keys (e : KeyEvent) (confirmed : bool) (w : World) :
  key e <> "ArrowLeft" ->
  key e <> "ArrowRight" ->
  (ctrlKey e || metaKey e = false
   \/ (toLowerCase (key e) <> "n" /\ toLowerCase (key e) <> "d")) ->
  onKey e confirmed w = (Val false, w).
Proof.
  intros Hl Hr Hk. unfold onKey.
  apply String.eqb_neq in Hl, Hr. rewrite Hl, Hr.
  assert (Hn : (ctrlKey e || metaKey e) && String.eqb (toLowerCase (key e)) "n" = false).
  { destruct Hk as [-> | [Hn _]]; [reflexivity |].
    apply String.eqb_neq in Hn. rewrite Hn. apply andb_false_r. }
  assert (Hd : (ctrlKey e || metaKey e) && String.eqb (toLowerCase (key e)) "d" = false).
  { destruct Hk as [-> | [_ Hd]]; [reflexivity |].
    apply String.eqb_neq in Hd. rewrite Hd. apply andb_false_r. }
  rewrite Hn, Hd. reflexivity.
Qed.

Lemma onKey_ignores_other_keys_witness :
  onKey (mkKey "n" false false) true deck2 = (Val false, deck2).
Proof.
  apply onKey_ignores_other_keys; [discriminate | discriminate |].
  left. reflexivity.
Defined.

(* ================================================================== *)
(** ** Typing in a slide *)
(* ================================================================== *)

Lemma lookup_set_prop_same (k : string) (v : JVal) (o : list (string * JVal)) :
  lookup k (set_prop k v o) = v.
Proof.
  induction o as [| [k' v'] o IH]; cbn [set_prop lookup].
  - now rewrite String.eqb_refl.
  - destruct (String.eqb k k') eqn:E; cbn [lookup]; rewrite E; auto.
Qed.

Lemma lookup_set_prop_other (k k' : string) (v : JVal) (o : list (string * JVal)) :
  k' <> k -> lookup k' (set_prop k v o) = lookup k' o.
Proof.
  intros Hne. apply String.eqb_neq in Hne.
  induction o as [| [k0 v0] o IH]; cbn [set_prop lookup].
  - now rewrite Hne.
  - destruct (String.eqb k k0) eqn:E; cbn [lookup].
    + apply String.eqb_eq in E. subst k0. now rewrite Hne.
    + now rewrite IH.
Qed.

Lemma nth_error_update_same {A} (l : list A) (i : nat) (x : A) :
  (i < length l)%nat -> nth_error (update l i x) i = Some x.
Proof.
  revert i. induction l as [| y l IH]; intros [| i] H; cbn in *; try lia; auto.
  apply IH. lia.
Qed.

Lemma nth_error_update_other {A} (l : list A) (i j : nat) (x : A) :
  i <> j -> nth_error (update l i x) j = nth_error l j.
Proof.
  revert i j. induction l as [| y l IH]; intros [| i] [| j] H; cbn; auto; try lia.
Qed.

Lemma length_update {A} (l : list A) (i : nat) (x : A) :
  length (update l i x) = length l.
Proof.
  revert i. induction l as [| y l IH]; intros [| i]; cbn; auto.
Qed.

Lemma index_in_range {A} (l : list A) (i : Z) (x : A) :
  index l i = Some x -> 0 <= i /\ (Z.to_nat i < length l)%nat.
Proof.
  unfold index. destruct (Z.ltb_spec i 0) as [Hi | Hi]; [discriminate |].
  intros H. split; [exact Hi |]. apply nth_error_Some. congruence.
Qed.

(** Typing in a slide that is an object, in full. *)
Lemma onTextInput_object_run (w : World) (idx : Z) (txt : string)
      (o : list (string * JVal)) :
  index (slides (state w)) idx = Some (JObj o) ->
  let st' := set_slides (update (slides (state w)) (Z.to_nat idx)
                                (JObj (set_prop "text" (JStr txt) o)))
                        (state w) in
  onTextInput idx txt w =
  (Val tt,
   mkWorld st' (defaultSlides w)
           (Some (JSON_stringify (state_obj st')))
           (JSON_stringify (state_obj st') :: writes w)
           (alerts w) (console w) (ids w) (nextId w) (dom w)).
Proof.
  intros H. unfold onTextInput, bind, get_state. rewrite H. reflexivity.
Qed.

(** X11.  Typing in a slide that is an object replaces the [text] of
    that slide and nothing else: its other properties (its [id]), the
    other slides, the number of slides and [current] are as before.
    The handler completes and the store holds the edited deck. *)
Theorem onTextInput_sets_text (w : World) (idx : Z) (txt : string)
        (o : list (string * JVal)) :
  index (slides (state w)) idx = Some (JObj o) ->
  let w' := exec (onTextInput idx txt) w in
  outcome (onTextInput idx txt) w = Val tt
  /\ (exists o',
        index (slides (state w')) idx = Some (JObj o')
        /\ lookup "text" o' = JStr txt
        /\ forall k, k <> "text" -> lookup k o' = lookup k o)
  /\ (forall j, j <> idx -> index (slides (state w')) j = index (slides (state w)) j)
  /\ length (slides (state w')) = length (slides (state w))
  /\ current (state w') = current (state w)
  /\ synced w'.
Proof.
  intros H. cbv zeta.
  pose proof (onTextInput_object_run w idx txt o H) as Hrun. cbv zeta in Hrun.
  destruct (index_in_range _ _ _ H) as [H0 Hlt].
  unfold exec, outcome. rewrite Hrun. cbn [fst snd state set_slides slides current].
  split; [reflexivity |]. split.
  - exists (set_prop "text" (JStr txt) o). split.
    + unfold index. destruct (Z.ltb_spec idx 0); [lia |].
      now apply nth_error_update_same.
    + split; [apply lookup_set_prop_same |].
      intros k Hk. now apply lookup_set_prop_other.
  - split.
    + intros j Hj. unfold index. destruct (Z.ltb_spec j 0); [reflexivity |].
      apply nth_error_update_other. lia.
    + split; [apply length_update |]. split; reflexivity.
Qed.

Lemma onTextInput_sets_text_witness :
  outcome (onTextInput 1 "x") deck2 = Val tt
  /\ length (slides (state (exec (onTextInput 1 "x") deck2))) = 2%nat
  /\ current (state (exec (onTextInput 1 "x") deck2)) = JNum (Int 0).
Proof.
  pose proof (onTextInput_sets_text deck2 1 "x"
                [("id", JStr "b"); ("text", JStr "B")] eq_refl) as H.
  cbv zeta in H. destruct H as (Ho & _ & _ & Hl & Hc & _).
  split; [exact Ho |]. split; [exact Hl | exact Hc].
Defined.

(* ================================================================== *)
(** ** Sessions: the store follows the deck *)
(* ================================================================== *)

(** [goTo] at a number, [NaN] included. *)
Lemma goTo_num (m : num) (w : World) :
  goTo (JNum m) w =
  let len := Z.of_nat (length (slides (state w))) in
  let a := if num_ltb m (Int 0) then Int 0 else m in
  let j := if num_ltb (Int (len - 1)) a then Int (len - 1) else a in
  if strict_eq (JNum j) (current (state w)) then (Val tt, w)
  else (Val tt, saved (with_state (set_current (JNum j) (state w)) w)).
Proof.
  unfold goTo, bind at 1, get_state. unfold bind at 1, eval, js_lt.
  cbn [ToNumber ToPrimitive rbind]. cbv zeta.
  assert (Hgo : forall j,
             (if strict_eq (JNum j) (current (state w))
              then focusCurrentEditable
              else modify_state (set_current (JNum j));; updateUI) w
             = if strict_eq (JNum j) (current (state w)) then (Val tt, w)
               else (Val tt,
                     saved (with_state (set_current (JNum j) (state w)) w))).
  { intros j. destruct (strict_eq _ _); [reflexivity |].
    unfold bind, modify_state. now rewrite (updateUI_num _ j). }
  destruct (num_ltb m (Int 0)).
  - unfold bind at 1, eval, js_gt, zero. cbn [ToNumber ToPrimitive rbind].
    destruct (num_ltb _ (Int 0)); apply Hgo.
  - unfold bind at 1, eval, js_gt. cbn [ToNumber ToPrimitive rbind].
    destruct (num_ltb _ m); apply Hgo.
Qed.

(** [goTo] at a number either leaves the world as it is or sets
    [current] to a number and saves. *)
Lemma goTo_cases (m : num) (w : World) :
  goTo (JNum m) w = (Val tt, w)
  \/ exists m',
       goTo (JNum m) w =
       (Val tt, saved (with_state (set_current (JNum m') (state w)) w)).
Proof.
  rewrite goTo_num. cbv zeta.
  destruct (strict_eq _ _); [now left | right; now eexists].
Qed.

Lemma prevClick_num (w : World) (n : num) :
  current (state w) = JNum n ->
  prevClick w = goTo (JNum (num_sub n (Int 1))) w.
Proof.
  intros Hc. unfold prevClick, bind, get_state, eval. now rewrite Hc.
Qed.

Lemma nextClick_num (w : World) (n : num) :
  current (state w) = JNum n ->
  nextClick w = goTo (JNum (num_add n (Int 1))) w.
Proof.
  intros Hc. unfold nextClick, bind, get_state, eval. now rewrite Hc.
Qed.







Lemma onTextInput_cases (idx : Z) (txt : string) (w : World) :
  onTextInput idx txt w = (Throw TypeError, w)
  \/ onTextInput idx txt w = (Val tt, exec save w)
  \/ exists o,
       index (slides (state w)) idx = Some (JObj o).
Proof.
  unfold onTextInput, bind, get_state.
  destruct (index (slides (state w)) idx) as [[| | b | n | s | l | o] |];
    try (left; reflexivity); try (right; left; reflexivity).
  right. right. now exists o.
Qed.



Lemma onKey_preserves (P : World -> Prop) (e : KeyEvent) (b : bool) :
  preserved P prevClick -> preserved P nextClick ->
  preserved P addSlide -> preserved P (deleteSlide b) ->
  preserved P (onKey e b).
Proof.
  intros Hp Hn Ha Hd. unfold onKey.
  apply preserved_bind; [apply preserved_if; [exact Hp | apply preserved_ret] |].
  intros _.
  apply preserved_bind; [apply preserved_if; [exact Hn | apply preserved_ret] |].
  intros _.
  apply preserved_bind.
  { apply preserved_if; [| apply preserved_ret].
    apply preserved_bind; [exact Ha | intros _; apply preserved_ret]. }
  intros p1.
  apply preserved_bind.
  { apply preserved_if; [| apply preserved_ret].
    apply preserved_bind; [exact Hd | intros _; apply preserved_ret]. }
  intros p2. apply preserved_ret.
Qed.






(** The two ways in which the store falls behind the deck: a start-up
    that throws, and an import that stops half-way. *)
Example store_behind_deck :
  ~ synced (snd (boot (Some stored_null_slide) sample_ids))
  /\ ~ synced (play [FileChosen (Some (TJson (JObj doc_A_own_toString)))]
                    (snd (boot None sample_ids))).
Proof. split; discriminate. Qed.

(* ================================================================== *)
(** ** Sessions: the bounds of [current] *)
(* ================================================================== *)

Lemma in_bounds_int (w : World) :
  in_bounds w -> exists c, current (state w) = JNum (Int c).
Proof.
  unfold in_bounds, session_bounds.
  destruct (current (state w)) as [| | | [| c] | | |]; try discriminate.
  intros _. now exists c.
Qed.


Lemma goTo_in_bounds (i : Z) (w : World) :
  in_bounds (exec (goTo (JNum (Int i))) w).
Proof.
  unfold in_bounds. rewrite goTo_state.
  unfold session_bounds, set_current, size, clamp. cbn [current slides]. lia.
Qed.

Lemma prevClick_in_bounds : preserved in_bounds prevClick.
Proof.
  intros w H. destruct (in_bounds_int w H) as (c & Hc).
  unfold exec. rewrite (prevClick_int w c Hc). apply goTo_in_bounds.
Qed.

Lemma nextClick_in_bounds : preserved in_bounds nextClick.
Proof.
  intros w H. destruct (in_bounds_int w H) as (c & Hc).
  unfold exec. rewrite (nextClick_int w c Hc). apply goTo_in_bounds.
Qed.

Lemma addSlide_in_bounds : preserved in_bounds addSlide.
Proof.
  intros w H. destruct (in_bounds_int w H) as (c & Hc).
  unfold in_bounds, session_bounds, size in *.
  rewrite (addSlide_state w c Hc). rewrite Hc in H. cbn [current slides].
  rewrite length_splice_insert. lia.
Qed.

Lemma deleteSlide_in_bounds (b : bool) : preserved in_bounds (deleteSlide b).
Proof.
  intros w H. destruct b; [| unfold exec; now rewrite deleteSlide_unconfirmed].
  destruct (slides (state w)) as [| s l] eqn:Hs.
  { unfold exec. now rewrite (deleteSlide_empty w true Hs). }
  assert (Hb : index_bounded (state w) = true).
  { unfold in_bounds, session_bounds, index_bounded, size in *.
    destruct (current (state w)) as [| | | [| c] | | |]; try discriminate.
    rewrite Hs in *. cbn [length] in *. lia. }
  pose proof (deleteSlide_keeps_index_bounded w true Hb) as Hb'.
  unfold in_bounds, session_bounds, index_bounded in *.
  destruct (current (state (exec (deleteSlide true) w))) as [| | | [| c] | | |];
    try discriminate. lia.
Qed.

Lemma onTextInput_shape (idx : Z) (txt : string) (w : World) :
  current (state (exec (onTextInput idx txt) w)) = current (state w)
  /\ length (slides (state (exec (onTextInput idx txt) w)))
     = length (slides (state w)).
Proof.
  unfold exec at 1 2.
  destruct (onTextInput_cases idx txt w) as [-> | [-> | (o & Ho)]]; cbn [snd];
    try (split; reflexivity).
  pose proof (onTextInput_object_run w idx txt o Ho) as Hrun. cbv zeta in Hrun.
  rewrite Hrun. cbn [snd state set_slides current slides].
  split; [reflexivity | apply length_update].
Qed.

Lemma onTextInput_in_bounds (idx : Z) (txt : string) :
  preserved in_bounds (onTextInput idx txt).
Proof.
  intros w H. destruct (onTextInput_shape idx txt w) as [Hc Hl].
  unfold in_bounds, session_bounds, size in *. now rewrite Hc, Hl.
Qed.

Lemma handle_in_bounds (ev : event) (w : World) :
  no_import ev = true -> in_bounds w -> in_bounds (handle ev w).
Proof.
  intros Hn H. destruct ev; cbn [handle]; try discriminate.
  - apply goTo_in_bounds.
  - now apply prevClick_in_bounds.
  - now apply nextClick_in_bounds.
  - now apply addSlide_in_bounds.
  - now apply deleteSlide_in_bounds.
  - now apply onTextInput_in_bounds.
  - apply onKey_preserves; auto using prevClick_in_bounds, nextClick_in_bounds,
      addSlide_in_bounds, deleteSlide_in_bounds.
Qed.

(** X13.  Throughout a session without import that starts from a deck
    satisfying the invariants, after every event (clicks, arrows, add,
    delete, typing, keys) [current] is an integer between [-1] and
    [slides.length], and it is [-1] on an empty deck only. *)
Theorem session_keeps_current_bounded (w : World) (evs : list event) :
  deck_invariant (state w) = true ->
  forallb no_import evs = true ->
  forall k, session_bounds (state (play (firstn k evs) w)) = true.
Proof.
  intros H Hn k. apply (preserved_play in_bounds).
  - intros ev Hin w' Hw'. apply handle_in_bounds; [| exact Hw'].
    rewrite forallb_forall in Hn. apply Hn. now apply (in_firstn ev k evs).
  - unfold in_bounds, session_bounds. unfold deck_invariant in H.
    destruct (current (state w)) as [| | | [| c] | | |]; try discriminate. lia.
Qed.

Lemma session_keeps_current_bounded_witness :
  session_bounds
    (state (play (firstn 3 [DeleteClick true; PrevClick; AddClick; AddClick]) deck1))
  = true.
Proof.
  apply (session_keeps_current_bounded deck1
           [DeleteClick true; PrevClick; AddClick; AddClick]); reflexivity.
Defined.

(* ================================================================== *)
(** ** Sessions: the ids of the slides *)
(* ================================================================== *)

Lemma supply_ok_frame (w w' : World) :
  slide_ids (state w') = slide_ids (state w) ->
  nextId w' = nextId w ->
  ids w' = ids w ->
  numeric (current (state w')) = true ->
  supply_ok w -> supply_ok w'.
Proof.
  intros Hs Hn Hi Hc [(ns & Hnd & Hlt & Hids) [Hinj _]].
  split; [| split; [now rewrite Hi | exact Hc]].
  exists ns. rewrite Hs, Hn, Hi. auto.
Qed.

Lemma in_removed {A} (x : A) (k : nat) (l : list A) :
  In x (firstn k l ++ skipn (S k) l) -> In x l.
Proof.
  intros H. apply in_app_or in H as [H | H].
  - now apply (in_firstn x k l).
  - rewrite <- (firstn_skipn (S k) l). apply in_or_app. now right.
Qed.

Lemma NoDup_removed {A} (k : nat) (l : list A) :
  NoDup l -> NoDup (firstn k l ++ skipn (S k) l).
Proof.
  revert l. induction k as [| k IH]; intros [| x l] H; cbn [firstn skipn app];
    try constructor.
  - now inversion H.
  - inversion H as [| ? ? Hx Hl]; subst.
    intros Hin. apply Hx. now apply (in_removed x k l).
  - inversion H; subst. now apply IH.
Qed.

Lemma map_inserted {A B} (f : A -> B) (k : nat) (l : list A) (x : A) :
  map f (firstn k l ++ x :: skipn k l)
  = (firstn k (map f l) ++ f x :: skipn k (map f l))%list.
Proof. now rewrite map_app, firstn_map, skipn_map. Qed.

Lemma map_removed {A B} (f : A -> B) (k : nat) (l : list A) :
  map f (firstn k l ++ skipn (S k) l)
  = (firstn k (map f l) ++ skipn (S k) (map f l))%list.
Proof. now rewrite map_app, firstn_map, skipn_map. Qed.

Lemma map_update_same {A B} (f : A -> B) (l : list A) (i : nat) (x y : A) :
  nth_error l i = Some y -> f x = f y -> map f (update l i x) = map f l.
Proof.
  revert i. induction l as [| z l IH]; intros [| i] H E; cbn in *;
    try discriminate.
  - injection H as ->. now rewrite E.
  - f_equal. now apply IH.
Qed.

Lemma addSlide_frame (w : World) (n : num) :
  current (state w) = JNum n -> same_deck (added n w) (exec addSlide w).
Proof.
  intros Hc. unfold exec. rewrite (addSlide_num w n Hc).
  apply finish_frame.
Qed.

Lemma deleteSlide_frame (w : World) (n : num) :
  current (state w) = JNum n ->
  slides (state w) <> [] ->
  same_deck (deleted n w) (exec (deleteSlide true) w).
Proof.
  intros Hc Hne. unfold exec. rewrite (deleteSlide_num w n Hc Hne).
  apply finish_frame.
Qed.

Lemma goTo_supply_ok (m : num) : preserved supply_ok (goTo (JNum m)).
Proof.
  intros w H. unfold exec.
  destruct (goTo_cases m w) as [-> | (m' & ->)]; [exact H |].
  apply (supply_ok_frame w); auto.
Qed.

Lemma prevClick_supply_ok : preserved supply_ok prevClick.
Proof.
  intros w H. destruct (ToNumber_numeric _ (proj2 (proj2 H))) as (n & Hc).
  unfold exec. rewrite (prevClick_num w n Hc). now apply goTo_supply_ok.
Qed.

Lemma nextClick_supply_ok : preserved supply_ok nextClick.
Proof.
  intros w H. destruct (ToNumber_numeric _ (proj2 (proj2 H))) as (n & Hc).
  unfold exec. rewrite (nextClick_num w n Hc). now apply goTo_supply_ok.
Qed.

Lemma addSlide_supply_ok : preserved supply_ok addSlide.
Proof.
  intros w [(ns & Hnd & Hlt & Hids) [Hinj Hnum]].
  destruct (ToNumber_numeric _ Hnum) as (n & Hc).
  destruct (addSlide_frame w n Hc) as (Hst & _ & _ & _ & Hi & Hn).
  split; [| split; [now rewrite Hi | now rewrite Hst]].
  set (k := splice_start (slides (state w)) (int_of (num_add n (Int 1)))).
  exists (firstn k ns ++ nextId w :: skipn k ns)%list.
  assert (Hnew : ~ In (nextId w) ns).
  { intros Hin. rewrite Forall_forall in Hlt. specialize (Hlt _ Hin). lia. }
  rewrite Hst, Hi, Hn. cbn [added nextId ids state].
  split; [| split].
  - apply (Permutation_NoDup (l := nextId w :: ns)).
    + rewrite <- (firstn_skipn k ns) at 1. apply Permutation_middle.
    + now constructor.
  - apply Forall_forall. intros x Hx.
    apply in_app_or in Hx as [Hx | [<- | Hx]]; [| lia |].
    + apply (in_firstn x k ns) in Hx.
      rewrite Forall_forall in Hlt. specialize (Hlt _ Hx). lia.
    + assert (Hin : In x ns)
        by (rewrite <- (firstn_skipn k ns); apply in_or_app; now right).
      rewrite Forall_forall in Hlt. specialize (Hlt _ Hin). lia.
  - unfold slide_ids, splice_insert. cbn [slides]. fold k.
    rewrite map_inserted. fold (slide_ids (state w)). rewrite Hids.
    rewrite map_inserted. reflexivity.
Qed.

Lemma deleteSlide_supply_ok (b : bool) : preserved supply_ok (deleteSlide b).
Proof.
  intros w H. destruct b; [| unfold exec; now rewrite deleteSlide_unconfirmed].
  destruct (slides (state w)) as [| s l] eqn:Hs.
  { unfold exec. now rewrite (deleteSlide_empty w true Hs). }
  assert (Hne : slides (state w) <> []) by (rewrite Hs; discriminate).
  destruct H as [(ns & Hnd & Hlt & Hids) [Hinj Hnum]].
  destruct (ToNumber_numeric _ Hnum) as (n & Hc).
  destruct (deleteSlide_frame w n Hc Hne) as (Hst & _ & _ & _ & Hi & Hn).
  destruct (deleted_numeric n w) as (m & Hm).
  split; [| split; [now rewrite Hi | now rewrite Hst, Hm]].
  set (k := splice_start (slides (state w)) (int_of n)).
  exists (firstn k ns ++ skipn (S k) ns)%list.
  rewrite Hst, Hi, Hn. cbn [deleted with_state nextId ids state].
  split; [now apply NoDup_removed |]. split.
  - apply Forall_forall. intros x Hx. apply in_removed in Hx.
    rewrite Forall_forall in Hlt. now apply Hlt.
  - unfold slide_ids, splice_delete. cbn [slides]. fold k.
    rewrite map_removed. fold (slide_ids (state w)). rewrite Hids.
    now rewrite map_removed.
Qed.

Lemma onTextInput_supply_ok (idx : Z) (txt : string) :
  preserved supply_ok (onTextInput idx txt).
Proof.
  intros w H. unfold exec.
  destruct (onTextInput_cases idx txt w) as [-> | [-> | (o & Ho)]]; cbn [snd].
  - exact H.
  - apply (supply_ok_frame w); auto. exact (proj2 (proj2 H)).
  - pose proof (onTextInput_object_run w idx txt o Ho) as Hrun. cbv zeta in Hrun.
    rewrite Hrun. cbn [snd]. apply (supply_ok_frame w); auto.
    + unfold slide_ids. cbn [state set_slides slides].
      apply (map_update_same _ _ _ _ (JObj o)).
      * unfold index in Ho. destruct (idx <? 0); [discriminate | exact Ho].
      * cbn [prop]. apply lookup_set_prop_other. discriminate.
    + exact (proj2 (proj2 H)).
Qed.

Lemma handle_supply_ok (ev : event) (w : World) :
  no_import ev = true -> supply_ok w -> supply_ok (handle ev w).
Proof.
  intros Hn H. destruct ev; cbn [handle]; try discriminate.
  - now apply goTo_supply_ok.
  - now apply prevClick_supply_ok.
  - now apply nextClick_supply_ok.
  - now apply addSlide_supply_ok.
  - now apply deleteSlide_supply_ok.
  - now apply onTextInput_supply_ok.
  - apply onKey_preserves; auto using prevClick_supply_ok, nextClick_supply_ok,
      addSlide_supply_ok, deleteSlide_supply_ok.
Qed.

Lemma supply_ok_NoDup (w : World) :
  supply_ok w -> NoDup (slide_ids (state w)).
Proof.
  intros [(ns & Hnd & _ & ->) [Hinj _]].
  induction Hnd as [| n ns Hn Hnd IH]; cbn [map]; constructor; [| exact IH].
  intros Hin. apply in_map_iff in Hin as (m & Hm & Hin).
  injection Hm as Hm. apply Hinj in Hm. now subst.
Qed.

(** X14.  As long as [genId] never returns the same string twice, the
    ids of the slides of the deck are pairwise distinct: starting the
    script on an empty store, this holds after every event of a session
    without import (clicks, arrows, add, delete, typing, keys). *)
Theorem slide_ids_stay_distinct (gen : nat -> string) (evs : list event) :
  (forall m n, gen m = gen n -> m = n) ->
  forallb no_import evs = true ->
  forall k, NoDup (slide_ids (state (play (firstn k evs) (snd (boot None gen))))).
Proof.
  intros Hinj Hn k. apply supply_ok_NoDup.
  apply (preserved_play supply_ok).
  - intros ev Hin w Hw. apply handle_supply_ok; [| exact Hw].
    rewrite forallb_forall in Hn. apply Hn. now apply (in_firstn ev k evs).
  - split; [| split; [exact Hinj | reflexivity]].
    exists [0%nat]. split; [repeat constructor; intros [] |].
    split; [repeat constructor | reflexivity].
Qed.

Lemma sample_ids_injective (m n : nat) : sample_ids m = sample_ids n -> m = n.
Proof.
  unfold sample_ids. intros H. injection H as H.
  assert (Hnn : forall x, Nat.to_uint x <> Decimal.Nil).
  { intros x Hx.
    pose proof (DecimalNat.Unsigned.to_of (Nat.to_uint x)) as E.
    rewrite DecimalNat.Unsigned.of_to, Hx in E.
    symmetry in E. exact (DecimalFacts.unorm_nonnil _ E). }
  apply (f_equal NilZero.uint_of_string) in H.
  rewrite !NilZero.usu in H by apply Hnn.
  injection H as H. now apply DecimalNat.Unsigned.to_uint_inj.
Qed.

Lemma slide_ids_stay_distinct_witness :
  NoDup (slide_ids (state (play (firstn 3 [AddClick; AddClick; DeleteClick true])
                                (snd (boot None sample_ids))))).
Proof.
  apply (slide_ids_stay_distinct sample_ids [AddClick; AddClick; DeleteClick true]).
  - exact sample_ids_injective.
  - reflexivity.
Defined.

(* ================================================================== *)
(** ** Reloading the page *)
(* ================================================================== *)

(** The state [init] leaves is the one [load] leaves, whether the page
    can be built or not. *)
Lemma init_state (w : World) :
  load_in_model (storage w) -> state (exec init w) = loaded_state w.
Proof.
  intros Hm. unfold exec. rewrite init_unfold, (load_run w Hm).
  destruct (finish_frame (loaded w)) as (Hs & _). exact Hs.
Qed.

Lemma stored_empty_deck (st : State) :
  slides st = [] ->
  stored_deck (Some (JSON_stringify (state_obj st))) = None.
Proof.
  destruct st as [sl cur rs]. cbn [slides]. intros ->. reflexivity.
Qed.

(** X15.  An empty deck does not survive a reload: when the store holds
    the serialization of a deck without slides (as it does after the
    only slide has been deleted), the next start of the script discards
    it, silently, for the default deck: the single default slide, with
    the id generated at that start, and [current = 0]. *)
Theorem emptied_deck_reloads_as_default (st : State) (gen : nat -> string) :
  slides st = [] ->
  let w := snd (boot (Some (JSON_stringify (state_obj st))) gen) in
  fst (boot (Some (JSON_stringify (state_obj st))) gen) = Val tt
  /\ state w = mkState [JObj [("id", JStr (gen 0%nat)); ("text", JStr defaultText)]]
                       (JNum (Int 0)) []
  /\ alerts w = []
  /\ console w = [].
Proof.
  intros Hs. cbv zeta. pose proof (stored_empty_deck st Hs) as He.
  set (raw := Some (JSON_stringify (state_obj st))) in *.
  assert (Hm : load_in_model (storage (started raw gen))).
  { unfold load_in_model. cbn [storage started]. now rewrite He. }
  assert (Hl : loaded_state (started raw gen) = defaultState (started raw gen)).
  { unfold loaded_state. cbn [storage started]. now rewrite He. }
  assert (Hg : load_log raw = []).
  { unfold load_log. rewrite He. reflexivity. }
  rewrite boot_run, (init_run _ Hm) by now rewrite Hl.
  cbn [fst snd state alerts console storage started]. rewrite Hl, Hg.
  repeat split.
Qed.

Lemma emptied_deck_reloads_as_default_witness :
  state (snd (boot (Some (JSON_stringify
                            (state_obj (state (exec (deleteSlide true) deck1)))))
                   sample_ids))
  = mkState [JObj [("id", JStr (sample_ids 0)); ("text", JStr defaultText)]]
            (JNum (Int 0)) [].
Proof.
  apply (emptied_deck_reloads_as_default
           (state (exec (deleteSlide true) deck1)) sample_ids).
  reflexivity.
Defined.

Lemma well_formed_inv (d : Deck) :
  well_formed d = true ->
  deck_slides d <> []
  /\ clamp (deck_current d) 0 (Z.of_nat (length (deck_slides d)) - 1)
     = deck_current d.
Proof.
  unfold well_formed, clamp. intros H. split; [| lia].
  destruct (deck_slides d); [cbn in H; lia | discriminate].
Qed.

(** X16.  A deck of the data model whose [current] is an index into
    its slides comes back from a reload exactly as it was saved: same
    slides, same [current], no other property. *)
Theorem saved_deck_reloads_unchanged (d : Deck) (gen : nat -> string) :
  well_formed d = true ->
  state (snd (boot (Some (JSON_stringify (state_obj (deck_state d)))) gen))
  = deck_state d.
Proof.
  intros H. destruct (well_formed_inv d H) as [Hne Hc].
  rewrite boot_run, stringify_deck.
  set (raw := Some (TJson (state_obj (deck_state d)))).
  assert (Hst : stored_deck raw =
                Some ([("slides", JArr (map slide_obj (deck_slides d)));
                       ("current", JNum (Int (deck_current d)))],
                      map slide_obj (deck_slides d))).
  { destruct d as [[| s l] c]; [exfalso; apply Hne; reflexivity |].
    reflexivity. }
  assert (Hcl : clampCurrent (JNum (Int (deck_current d)))
                  (length (map slide_obj (deck_slides d)))
                = Val (JNum (Int (deck_current d)))).
  { rewrite length_map, clampCurrent_int. now rewrite Hc. }
  fold (exec init (started raw gen)). rewrite init_state.
  - unfold loaded_state. cbn [storage started]. rewrite Hst.
    cbn [lookup String.eqb Ascii.eqb Bool.eqb]. rewrite Hcl. reflexivity.
  - unfold load_in_model. cbn [storage started]. rewrite Hst.
    cbn [lookup String.eqb Ascii.eqb Bool.eqb]. rewrite Hcl. discriminate.
Qed.

Lemma saved_deck_reloads_unchanged_witness :
  state (snd (boot (Some (JSON_stringify
                            (state_obj (deck_state (mkDeck [mkSlide "a" "A"; mkSlide "b" "B"] 1)))))
                   sample_ids))
  = deck_state (mkDeck [mkSlide "a" "A"; mkSlide "b" "B"] 1).
Proof.
  apply (saved_deck_reloads_unchanged
           (mkDeck [mkSlide "a" "A"; mkSlide "b" "B"] 1) sample_ids).
  reflexivity.
Defined.

(* ================================================================== *)
(** ** Export, then import *)
(* ================================================================== *)

Lemma normalized_typed gen lo hi (s : Slide) (s' : JVal) :
  slide_id s <> "" ->
  normalized gen lo hi (slide_obj s) s' -> s' = slide_obj s.
Proof.
  intros Hid (i & t & -> & Hi & _ & Ht & He).
  unfold slide_obj in *. cbn [prop lookup String.eqb Ascii.eqb Bool.eqb] in *.
  assert (Hti : truthy (JStr (slide_id s)) = true).
  { cbn. apply negb_true_iff. now apply String.eqb_neq. }
  rewrite (Hi Hti).
  destruct (truthy (JStr (slide_text s))) eqn:Et.
  - now rewrite (Ht eq_refl).
  - rewrite (He eq_refl). cbn in Et. apply negb_false_iff in Et.
    apply String.eqb_eq in Et. now rewrite Et.
Qed.

Lemma normalized_typed_all gen lo hi (l : list Slide) (l' : list JVal) :
  Forall (fun s => slide_id s <> "") l ->
  Forall2 (normalized gen lo hi) (map slide_obj l) l' ->
  l' = map slide_obj l.
Proof.
  revert l'. induction l as [| s l IH]; intros l' Hid H; inversion H; subst;
    [reflexivity |].
  inversion Hid; subst. cbn [map]. f_equal.
  - eapply normalized_typed; eauto.
  - now apply IH.
Qed.

Lemma missing_ids_typed (l : list Slide) :
  Forall (fun s => slide_id s <> "") l -> missing_ids (map slide_obj l) = 0%nat.
Proof.
  unfold missing_ids. induction 1 as [| s l Hs Hl IH]; [reflexivity |].
  cbn [map filter]. unfold slide_obj at 1.
  cbn [prop lookup String.eqb Ascii.eqb Bool.eqb truthy].
  apply String.eqb_neq in Hs. rewrite Hs. cbn [negb]. exact IH.
Qed.


Lemma typed_renderable (l : list Slide) :
  forallb renderable (map slide_obj l) = true.
Proof.
  induction l as [| s l IH]; [reflexivity |].
  cbn [map forallb]. rewrite IH.
  unfold renderable, stringable, slide_obj, js_or.
  cbn [getProp lookup String.eqb Ascii.eqb Bool.eqb].
  now destruct (truthy (JStr (slide_text s))).
Qed.

(** X17.  Importing what [exportJSON] produced gives the deck back.
    For a deck of the data model in which every slide has a non-empty
    id, the import of the exported text succeeds without alert and
    without generating any id, the slides are the same (order, ids and
    texts) and [current] is clamped into the deck; when [current] was an
    index into the slides the live deck is exactly what it was. *)
Theorem export_then_import (w : World) (d : Deck) :
  state w = deck_state d ->
  Forall (fun s => slide_id s <> "") (deck_slides d) ->
  let w' := exec (onImportLoad (exportJSON w)) w in
  outcome (onImportLoad (exportJSON w)) w = Val tt
  /\ alerts w' = alerts w
  /\ nextId w' = nextId w
  /\ slides (state w') = slides (state w)
  /\ current (state w')
     = JNum (Int (clamp (deck_current d) 0 (Z.of_nat (length (deck_slides d)) - 1)))
  /\ (well_formed d = true -> state w' = state w).
Proof.
  intros Hw Hid. cbv zeta. unfold exportJSON. rewrite Hw, stringify_deck.
  assert (Hsl : lookup "slides"
                  [("slides", JArr (map slide_obj (deck_slides d)));
                   ("current", JNum (Int (deck_current d)))]
                = JArr (map slide_obj (deck_slides d))) by reflexivity.
  assert (Hnn : Forall (fun s => nullish s = false) (map slide_obj (deck_slides d))).
  { apply Forall_forall. intros s Hs. apply in_map_iff in Hs as (x & <- & _).
    reflexivity. }
  destruct (onImportLoad_plain w _ _ Hsl Hnn eq_refl) as (l' & Hall & Hrun).
  apply normalized_typed_all in Hall; [| exact Hid]. subst l'.
  change (state_obj (deck_state d))
    with (JObj [("slides", JArr (map slide_obj (deck_slides d)));
                ("current", JNum (Int (deck_current d)))]).
  unfold exec, outcome. rewrite Hrun.
  erewrite importFinish_ok;
    [| reflexivity | cbn [imported state slides]; apply typed_renderable].
  cbn [fst snd state slides current alerts nextId lookup String.eqb Ascii.eqb
       Bool.eqb without existsb orb saved with_dom imported plain_value].
  rewrite (missing_ids_typed _ Hid), Nat.add_0_r, length_map.
  unfold deck_state. cbn [slides].
  repeat split.
  intros Hwf. destruct (well_formed_inv d Hwf) as [_ Hc]. now rewrite Hc.
Qed.

Lemma export_then_import_witness :
  state (exec (onImportLoad (exportJSON deck2)) deck2) = state deck2.
Proof.
  apply (export_then_import deck2 (mkDeck [mkSlide "a" "A"; mkSlide "b" "B"] 0)).
  - reflexivity.
  - repeat constructor; discriminate.
  - reflexivity.
Defined.

(* ================================================================== *)
(** ** Imports that fail *)
(* ================================================================== *)

Lemma mapM_normalize_fails (l : list JVal) :
  forall w,
    existsb nullish l = true ->
    exists k, mapM normalizeSlide l w = (Throw TypeError, after_ids k w).
Proof.
  induction l as [| s l IH]; intros w H; [discriminate |].
  cbn [existsb] in H. cbn [mapM]. unfold bind at 1.
  destruct (nullish s) eqn:Es.
  - rewrite (normalizeSlide_nullish s w Es). exists 0%nat.
    now rewrite after_ids_0.
  - rewrite (normalizeSlide_run s w Es). cbn [orb] in H.
    set (k0 := if truthy (prop s "id") then 0%nat else 1%nat).
    destruct (IH (after_ids k0 w) H) as (k & Hrun).
    unfold bind at 1. rewrite Hrun. exists (k0 + k)%nat.
    now rewrite after_ids_after_ids.
Qed.

Lemma onImportLoad_null_run (w : World) (o : list (string * JVal))
      (l : list JVal) :
  lookup "slides" o = JArr l ->
  existsb nullish l = true ->
  exists k,
    onImportLoad (TJson (JObj o)) w =
    (Val tt,
     mkWorld (state_of_obj o l) (defaultSlides w) (storage w) (writes w)
             (importFailed :: alerts w) (TypeError :: console w)
             (ids w) (nextId w + k) (dom w)).
Proof.
  intros Hsl Hnull.
  destruct (mapM_normalize_fails l (with_state (state_of_obj o l) w) Hnull)
    as (k & Hrun).
  exists k.
  unfold onImportLoad, try_catch, bind at 1, eval. cbn [JSON_parse].
  unfold bind at 1. cbn [getProp]. rewrite Hsl.
  unfold bind at 1, put_state. unfold bind at 1, get_state.
  cbn [state with_state slides state_of_obj].
  unfold bind at 1. rewrite Hrun. reflexivity.
Qed.

(** X18.  An import is not all or nothing.  For every file that parses
    to an object whose [slides] is an array with a [null] element, the
    import fails (one alert, a [TypeError] on the console) after
    [state = data] has been executed: the live deck is the imported
    object as it is in the file, with its slides not normalized and its
    [current] not clamped, while the store and the page are those of
    the deck before. *)
Theorem import_with_null_slide (w : World) (o : list (string * JVal))
        (l : list JVal) :
  lookup "slides" o = JArr l ->
  existsb nullish l = true ->
  let w' := exec (onImportLoad (TJson (JObj o))) w in
  outcome (onImportLoad (TJson (JObj o))) w = Val tt
  /\ alerts w' = importFailed :: alerts w
  /\ console w' = TypeError :: console w
  /\ state w' = mkState l (lookup "current" o) (without ["slides"; "current"] o)
  /\ storage w' = storage w
  /\ writes w' = writes w
  /\ dom w' = dom w.
Proof.
  intros Hsl Hnull. cbv zeta.
  destruct (onImportLoad_null_run w o l Hsl Hnull) as (k & Hrun).
  unfold exec, outcome. rewrite Hrun. repeat split.
Qed.

Lemma import_with_null_slide_witness :
  state (exec (onImportLoad (TJson (JObj doc_slide_then_null))) deck2)
  = mkState [JObj [("text", JStr "A")]; JNull] zero [].
Proof.
  apply (import_with_null_slide deck2 doc_slide_then_null
           [JObj [("text", JStr "A")]; JNull]); reflexivity.
Defined.

(** X19.  An import that is refused before the assignment changes
    nothing but the messages: when the text does not parse, parses to
    [null], or parses to a value whose [slides] is not an array, the
    handler completes, raises the alert once and logs one error; the
    deck, the store, the page and the supply of ids are untouched. *)
Theorem import_refused_early (w : World) (t : text) :
  rejected_early t = true ->
  let w' := exec (onImportLoad t) w in
  outcome (onImportLoad t) w = Val tt
  /\ alerts w' = importFailed :: alerts w
  /\ length (console w') = S (length (console w))
  /\ state w' = state w
  /\ storage w' = storage w
  /\ writes w' = writes w
  /\ nextId w' = nextId w
  /\ dom w' = dom w.
Proof.
  intros H. cbv zeta.
  destruct (onImportLoad_rejects_early w t H) as (e & Hrun).
  unfold exec, outcome. rewrite Hrun. repeat split.
Qed.

Lemma import_refused_early_witness :
  state (exec (onImportLoad (TJson (JObj [("current", zero)]))) deck2)
  = state deck2
  /\ alerts (exec (onImportLoad (TJson (JObj [("current", zero)]))) deck2)
     = [importFailed].
Proof.
  pose proof (import_refused_early deck2 (TJson (JObj [("current", zero)])) eq_refl)
    as H. cbv zeta in H. destruct H as (_ & Ha & _ & Hs & _).
  split; [exact Hs | exact Ha].
Defined.

(* ================================================================== *)
(** ** Swipes *)
(* ================================================================== *)

(** X20.  A touch gesture moves the deck by one slide at most.  On a
    deck that satisfies the invariants, a [touchstart] followed by its
    [touchend] goes to the next slide when the finger moved at least 40
    pixels to the left, and to the previous one when it moved at least
    40 pixels to the right, provided the gesture took at most 500 ms
    and drifted at most 75 pixels vertically; the move stops at the
    last and at the first slide.  Any other gesture leaves [current]
    where it is.  The slides are never changed. *)
Theorem swipe_moves_one_slide (w : World) (k0 : tracker) (t0 t1 : touch)
        (n0 n1 : Z) :
  deck_invariant (state w) = true ->
  let d := fst (touchend t1 n1 (touchstart t0 n0 k0)) in
  let dx := pageX t1 - pageX t0 in
  let dy := pageY t1 - pageY t0 in
  let swiped := (n1 - n0 <=? 500) && (40 <=? Z.abs dx) && (Z.abs dy <=? 75) in
  let last := Z.of_nat (length (slides (state w))) - 1 in
  exists c,
    current (state w) = JNum (Int c)
    /\ current (state (exec (onSwipe d) w))
       = JNum (Int (if swiped
                    then if dx <? 0 then Z.min (c + 1) last else Z.max (c - 1) 0
                    else c))
    /\ slides (state (exec (onSwipe d) w)) = slides (state w).
Proof.
  intros H. cbv zeta. destruct (invariant_inv _ H) as (c & Hc & Hr).
  exists c. split; [exact Hc |].
  unfold touchend, touchstart, threshold, restraint, allowedTime.
  cbn [fst startX startY startTime or_zero].
  destruct ((n1 - n0 <=? 500) && (40 <=? Z.abs (pageX t1 - pageX t0))
            && (Z.abs (pageY t1 - pageY t0) <=? 75)).
  - destruct (pageX t1 - pageX t0 <? 0); cbn [onSwipe]; unfold exec.
    + rewrite (nextClick_int w c Hc). fold (exec (goTo (JNum (Int (c + 1)))) w).
      rewrite goTo_state. unfold set_current, clamp, size. cbn [current slides].
      split; [do 2 f_equal; lia | reflexivity].
    + rewrite (prevClick_int w c Hc). fold (exec (goTo (JNum (Int (c - 1)))) w).
      rewrite goTo_state. unfold set_current, clamp, size. cbn [current slides].
      split; [do 2 f_equal; lia | reflexivity].
  - cbn [onSwipe]. split; [exact Hc | reflexivity].
Qed.

Lemma swipe_moves_one_slide_witness :
  current (state (exec (onSwipe (fst (touchend (mkTouch 100 205) 1300
                                        (touchstart (mkTouch 180 200) 1000 idle))))
                       deck2))
  = JNum (Int 1).
Proof.
  destruct (swipe_moves_one_slide deck2 idle (mkTouch 180 200) (mkTouch 100 205)
              1000 1300 eq_refl) as (c & Hc & Hcur & _).
  injection Hc as <-. exact Hcur.
Defined.

(** X21.  A [touchend] is always measured against what the last
    [touchstart] left, and a [touchend] erases the start point but not
    the start time.  So a second [touchend] with no [touchstart] in
    between (a second finger lifted) is measured from the origin of the
    page and from the time of the last [touchstart]: it counts as a
    swipe whenever it comes within 500 ms of that time at a point at
    least 40 pixels from the left edge and at most 75 from the top.
    Before any [touchstart], a [touchend] later than 500 ms after the
    epoch never counts as a swipe. *)
Theorem touchend_without_touchstart (k : tracker) (t0 t1 t2 : touch)
        (n0 n1 n2 : Z) :
  fst (touchend t2 n2 (snd (touchend t1 n1 (touchstart t0 n0 k))))
  = (if (n2 - n0 <=? 500) && (40 <=? Z.abs (pageX t2)) && (Z.abs (pageY t2) <=? 75)
     then Some (if pageX t2 <? 0 then Left else Right)
     else None)
  /\ (500 < n2 -> fst (touchend t2 n2 idle) = None).
Proof.
  unfold touchend, touchstart, idle, threshold, restraint, allowedTime.
  cbn [fst snd startX startY startTime or_zero].
  rewrite !Z.sub_0_r. split; [reflexivity |].
  intros Hn. destruct (Z.leb_spec n2 500); [lia | reflexivity].
Qed.

Lemma touchend_without_touchstart_witness :
  fst (touchend (mkTouch 300 50) 1700000000400 idle) = None.
Proof.
  apply (proj2 (touchend_without_touchstart idle (mkTouch 0 0) (mkTouch 0 0)
                  (mkTouch 300 50) 0 0 1700000000400)).
  reflexivity.
Defined.

(* ================================================================== *)
(** ** A [current] that is not a number *)
(* ================================================================== *)

Lemma goTo_NaN (w : World) :
  goTo (JNum NaN) w =
  (Val tt, saved (with_state (set_current (JNum NaN) (state w)) w)).
Proof. rewrite goTo_num. reflexivity. Qed.

Lemma splice_start_0 {A} (l : list A) : splice_start l 0 = 0%nat.
Proof.
  unfold splice_start. cbn. destruct (Z.of_nat (length l)); reflexivity.
Qed.

(** X22.  [NaN] sticks to [current].  Once [current] is [NaN] (as
    [load] leaves it for a stored [current] that converts to no number),
    neither the arrows nor adding or deleting slides bring it back to an
    index: after each of them [current] is still [NaN].  Meanwhile
    [addSlide] inserts the new slide in front of the deck and a
    confirmed [deleteSlide] removes the first slide.  A click on a slide
    does repair it: [goTo(i)] for an integer [i] sets [current] to
    [clamp(i, 0, slides.length - 1)]. *)
Theorem nan_current_sticks (w : World) :
  current (state w) = JNum NaN ->
  current (state (exec prevClick w)) = JNum NaN
  /\ current (state (exec nextClick w)) = JNum NaN
  /\ current (state (exec addSlide w)) = JNum NaN
  /\ slides (state (exec addSlide w))
     = JObj [("id", JStr (ids w (nextId w))); ("text", JStr newSlideText)]
       :: slides (state w)
  /\ (forall b, current (state (exec (deleteSlide b) w)) = JNum NaN)
  /\ slides (state (exec (deleteSlide true) w)) = tl (slides (state w))
  /\ (forall i, current (state (exec (goTo (JNum (Int i))) w))
                = JNum (Int (clamp i 0 (Z.of_nat (length (slides (state w))) - 1)))).
Proof.
  intros Hc.
  pose proof (addSlide_frame w NaN Hc) as (Ha & _).
  split; [| split; [| split; [| split; [| split; [| split]]]]].
  - unfold exec. rewrite (prevClick_num w NaN Hc). cbn [num_sub].
    now rewrite goTo_NaN.
  - unfold exec. rewrite (nextClick_num w NaN Hc). cbn [num_add].
    now rewrite goTo_NaN.
  - now rewrite Ha.
  - rewrite Ha. cbn [added state slides num_add int_of].
    unfold splice_insert. now rewrite splice_start_0.
  - intros [|]; [| unfold exec; now rewrite deleteSlide_unconfirmed].
    destruct (slides (state w)) as [| s l] eqn:Hs.
    + unfold exec. now rewrite (deleteSlide_empty w true Hs).
    + assert (Hne : slides (state w) <> []) by (rewrite Hs; discriminate).
      destruct (deleteSlide_frame w NaN Hc Hne) as (Hd & _). now rewrite Hd.
  - destruct (slides (state w)) as [| s l] eqn:Hs.
    + unfold exec. rewrite (deleteSlide_empty w true Hs). cbn [snd]. now rewrite Hs.
    + assert (Hne : slides (state w) <> []) by (rewrite Hs; discriminate).
      destruct (deleteSlide_frame w NaN Hc Hne) as (Hd & _). rewrite Hd.
      cbn [deleted with_state state slides int_of]. rewrite Hs.
      unfold splice_delete. now rewrite splice_start_0.
  - intros i. now rewrite goTo_state.
Qed.

Lemma nan_current_sticks_witness :
  current (state (exec nextClick (snd (boot (Some stored_abc) sample_ids))))
  = JNum NaN.
Proof.
  apply (nan_current_sticks (snd (boot (Some stored_abc) sample_ids))).
  reflexivity.
Defined.

(* ================================================================== *)
(** ** Where the invariants come from *)
(* ================================================================== *)

(** X23.  Start-up establishes the invariants of the deck.  Whenever
    the store is empty, holds a text that does not parse or holds a
    value without a non-empty [slides] array, and also when it holds an
    object with a non-empty [slides] array whose [current] is absent,
    [null], a boolean or an integer, the deck after the start of the
    script has at least one slide and [current] is an index into its
    slides. *)
Theorem boot_establishes_invariant (stored : option text) (gen : nat -> string) :
  match stored_deck stored with
  | None => True
  | Some (o, _) => plain_index (lookup "current" o) = true
  end ->
  deck_invariant (state (snd (boot stored gen))) = true.
Proof.
  intros Hp.
  assert (Hm : load_in_model (storage (started stored gen))).
  { unfold load_in_model. cbn [storage started].
    destruct (stored_deck stored) as [[o l] |]; [| exact I].
    rewrite (clampCurrent_number _ _ _ (plain_index_number _ Hp)). discriminate. }
  rewrite boot_run. fold (exec init (started stored gen)).
  rewrite (init_state _ Hm). unfold loaded_state. cbn [storage started].
  destruct (stored_deck stored) as [[o l] |] eqn:E; [| reflexivity].
  pose proof (stored_deck_nonempty stored o l E) as Hl.
  rewrite (clampCurrent_number _ _ _ (plain_index_number _ Hp)).
  unfold deck_invariant, size. cbn [current slides]. unfold clamp. lia.
Qed.

Lemma boot_establishes_invariant_witness :
  deck_invariant (state (snd (boot (Some stored_two_at_7) sample_ids))) = true.
Proof.
  apply (boot_establishes_invariant (Some stored_two_at_7) sample_ids).
  reflexivity.
Defined.

Lemma normalized_truthy_id gen lo hi (s s' : JVal) :
  (forall n, gen n <> "") ->
  normalized gen lo hi s s' -> truthy (prop s' "id") = true.
Proof.
  intros Hgen (i & t & -> & Hi & Hg & _ & _).
  cbn [prop lookup String.eqb Ascii.eqb Bool.eqb].
  destruct (truthy (prop s "id")) eqn:E.
  - now rewrite (Hi eq_refl).
  - destruct (Hg eq_refl) as (n & _ & ->). cbn.
    apply negb_true_iff. apply String.eqb_neq. apply Hgen.
Qed.

(** Whether it alerts or not, the end of an import leaves the deck and
    the supply of ids as they are. *)
Lemma importFinish_frame (w : World) :
  state (exec importFinish w) = state w
  /\ nextId (exec importFinish w) = nextId w.
Proof.
  unfold exec, importFinish, try_catch.
  destruct (finish_frame w) as (Hs & _ & _ & _ & _ & Hn). unfold exec in Hs, Hn.
  destruct ((renderSlides ;; updateUI) w) as [[[] | e] w'];
    cbn [snd] in Hs, Hn; [now split |].
  destruct e; now split.
Qed.

(** X24.  A successful import establishes the invariants of the deck.
    For every imported object whose [slides] is a non-empty array
    without [null] elements and whose [current] is absent, [null], a
    boolean or an integer, the deck after the import has at least one
    slide and [current] is an index into its slides; and, [genId] never
    returning the empty string, every slide of the deck has a truthy
    [id]. *)
Theorem import_establishes_invariant (w : World) (o : list (string * JVal))
        (l : list JVal) :
  lookup "slides" o = JArr l ->
  l <> [] ->
  Forall (fun s => nullish s = false) l ->
  plain_index (lookup "current" o) = true ->
  (forall n, ids w n <> "") ->
  let w' := exec (onImportLoad (TJson (JObj o))) w in
  deck_invariant (state w') = true
  /\ Forall (fun s => truthy (prop s "id") = true) (slides (state w')).
Proof.
  intros Hsl Hne Hl Hp Hgen. cbv zeta.
  destruct (onImportLoad_plain w o l Hsl Hl Hp) as (l' & Hall & Hrun).
  unfold exec. rewrite Hrun.
  match goal with
  | |- context [importFinish ?w1] =>
      destruct (importFinish_frame w1) as (Hs & _)
  end.
  unfold exec in Hs. rewrite Hs. cbn [imported state].
  assert (Hlen : length l' = length l)
    by (symmetry; eapply Forall2_length; exact Hall).
  split.
  - unfold deck_invariant, size. cbn [current slides].
    rewrite Hlen. unfold clamp.
    destruct l; [congruence | cbn [length]; lia].
  - cbn [slides]. clear Hrun Hlen Hne Hl Hsl Hs.
    induction Hall as [| s s' l0 l0' Hs Hall IH]; constructor.
    + eapply normalized_truthy_id; eauto.
    + exact IH.
Qed.

Lemma import_establishes_invariant_witness :
  deck_invariant (state (exec (onImportLoad (TJson (JObj doc_A_99))) deck2)) = true.
Proof.
  apply (import_establishes_invariant deck2 doc_A_99 [JObj [("text", JStr "A")]]).
  - reflexivity.
  - discriminate.
  - repeat constructor.
  - reflexivity.
  - intros n. discriminate.
Defined.
